(** * keystonemiddleware.audit._api: request classification and target resolution

    A shallow embedding of [OpenStackAuditApi] (src/keystonemiddleware/audit/_api.py)
    and the properties of its action classifier, its service-catalog scan and
    its configuration loader.

    Conventions of the embedding:
    - Python [str] is [string]; the dictionaries of the audit map are
      [gmap string string]; [None]-or-value is [option].
    - A call that may raise returns [result]; [get_target_resource], which
      also logs, returns the warnings it emitted next to its outcome.
    - The functions of other packages the module calls ([urlparse],
      [ast.literal_eval], the config parser's [read_file], [open]) are
      parameters of the section that embeds the class. *)

From Stdlib Require Import ZArith QArith Ascii String List Bool Lia.
From stdpp Require Import base option list gmap strings.

Local Open Scope string_scope.
Local Open Scope Z_scope.

(** ** Exceptions and outcomes *)

Inductive exn : Type :=
  | KeyError
  | IndexError
  | AttributeError
  | TypeError
  | ValueError
  | SyntaxError
  | IOError
  | NoSectionError            (* configparser.Error *)
  | NoOptionError             (* configparser.Error *)
  | DuplicateSectionError     (* configparser.Error *)
  | InterpolationError        (* configparser.Error *)
  | ParsingError (err : string)   (* configparser.Error; also its subclass
                                     MissingSectionHeaderError *)
  | PycadfAuditApiConfigError (msg : string).

(** [isinstance(e, configparser.Error)] *)
Definition is_configparser_Error (e : exn) : bool :=
  match e with
  | NoSectionError | NoOptionError | DuplicateSectionError
  | InterpolationError | ParsingError _ => true
  | _ => false
  end.

Definition is_NoOptionError (e : exn) : bool :=
  match e with NoOptionError => true | _ => false end.

Definition is_ValueError (e : exn) : bool :=
  match e with ValueError => true | _ => false end.

Definition is_ParsingError (e : exn) : bool :=
  match e with ParsingError _ => true | _ => false end.

Definition is_KeyError (e : exn) : bool :=
  match e with KeyError => true | _ => false end.

Inductive result (A : Type) : Type :=
  | Ok (a : A)
  | Raise (e : exn).
Arguments Ok {A} a.
Arguments Raise {A} e.

Definition bind {A B : Type} (r : result A) (k : A -> result B) : result B :=
  match r with
  | Ok a => k a
  | Raise e => Raise e
  end.

(** [try: body  except <handles>: handler] *)
Definition try_except {A : Type} (body : result A) (handles : exn -> bool)
    (handler : exn -> result A) : result A :=
  match body with
  | Ok a => Ok a
  | Raise e => if handles e then handler e else Raise e
  end.

#[global] Instance result_bind : MBind result := fun A B k r => bind r k.
#[global] Instance result_ret : MRet result := fun A a => Ok a.
#[global] Instance result_fmap : FMap result :=
  fun A B f r => bind r (fun a => Ok (f a)).

(** ** The operations on [str] the module uses *)

Module Py.

(** [s[:-n]] for [n > 0] *)
Definition drop_last (n : nat) (s : string) : string :=
  substring 0 (String.length s - n) s.

(** [s[i:]] for [i >= 0] *)
Definition slice_from (i : nat) (s : string) : string :=
  substring i (String.length s - i) s.

(** [s.endswith(suffix)] *)
Definition endswith (s suffix : string) : bool :=
  (String.length suffix <=? String.length s)%nat
  && String.eqb
       (substring (String.length s - String.length suffix)
                  (String.length suffix) s)
       suffix.

(** [s.rfind(c)] for a one-character [c]: the highest index of [c] in [s]
    counted from [i] at the head of [s], [-1] when there is none. *)
Fixpoint rfind_from (i : Z) (s : string) (c : ascii) : Z :=
  match s with
  | EmptyString => -1
  | String a s' =>
      let r := rfind_from (i + 1) s' c in
      if 0 <=? r then r else if Ascii.eqb a c then i else -1
  end.

Definition rfind (s : string) (c : ascii) : Z := rfind_from 0 s c.

(** [s.lower()] on ASCII text: the letters [A]-[Z] go to [a]-[z], every
    other character stays. *)
Definition lower_ascii (c : ascii) : ascii :=
  let n := nat_of_ascii c in
  if (65 <=? n)%nat && (n <=? 90)%nat then ascii_of_nat (n + 32) else c.

Fixpoint lower (s : string) : string :=
  match s with
  | EmptyString => EmptyString
  | String a s' => String (lower_ascii a) (lower s')
  end.

(** [re.split(c, s)] for a one-character pattern [c] that is not a
    metacharacter: the pieces between the occurrences of [c]; never empty. *)
Fixpoint split (c : ascii) (s : string) : list string :=
  match s with
  | EmptyString => [EmptyString]
  | String a s' =>
      if Ascii.eqb a c then EmptyString :: split c s'
      else match split c s' with
           | [] => [String a EmptyString]
           | w :: ws => String a w :: ws
           end
  end.

(** Truth value of an optional string: [None] and [''] are false. *)
Definition truthy (o : option string) : bool :=
  match o with
  | Some s => negb (String.eqb s "")
  | None => false
  end.

(** [k in d] *)
Definition contains (d : gmap string string) (k : string) : bool :=
  match d !! k with
  | Some _ => true
  | None => false
  end.

(** [d[k]] *)
Definition getitem (d : gmap string string) (k : string) : result string :=
  match d !! k with
  | Some v => Ok v
  | None => Raise KeyError
  end.

(** [c in s] for a one-character [c] *)
Fixpoint has_char (c : ascii) (s : string) : bool :=
  match s with
  | EmptyString => false
  | String a s' => Ascii.eqb a c || has_char c s'
  end.

(** [l[0]] *)
Definition first {A : Type} (l : list A) : result A :=
  match l with
  | x :: _ => Ok x
  | [] => Raise IndexError
  end.

End Py.

(** ** pycadf.cadftaxonomy *)

Module taxonomy.

(** Modelled from the spec: [pycadf.cadftaxonomy.UNKNOWN], a constant of a
    package outside this repository; the sentinel the specification calls
    [unknown]. *)
Definition UNKNOWN : string := "unknown".

(** Modelled from the spec: [pycadf.cadftaxonomy.ACTION_CREATE]; the action
    the specification calls [create]. *)
Definition ACTION_CREATE : string := "create".

(** Modelled from the spec: [pycadf.cadftaxonomy.ACTION_READ]; the action
    the specification calls [read]. *)
Definition ACTION_READ : string := "read".

(** Modelled from the spec: [pycadf.cadftaxonomy.ACTION_UPDATE]; the action
    the specification calls [update]. *)
Definition ACTION_UPDATE : string := "update".

(** Modelled from the spec: [pycadf.cadftaxonomy.ACTION_DELETE]; the action
    the specification calls [delete]. *)
Definition ACTION_DELETE : string := "delete".

(** Modelled from the spec: [pycadf.cadftaxonomy.ACTION_LIST]; the action
    the specification calls [list]. *)
Definition ACTION_LIST : string := "list".

End taxonomy.

(** ** Data model *)

(** A parsed JSON document, as [req.json] delivers it.  An object keeps its
    members in the order of the parsed [dict]. *)
#[warnings="-register-all"]
Inductive JSON : Type :=
  | JNull
  | JBool (b : bool)
  | JNumber (q : Q)
  | JString (s : string)
  | JArray (items : list JSON)
  | JObject (members : list (string * JSON)).

Module Json.

(** Truth value of a parsed document: [None], [False], zero and the empty
    string, list and dict are false. *)
Definition truthy (j : JSON) : bool :=
  match j with
  | JNull => false
  | JBool b => b
  | JNumber q => negb (Qnum q =? 0)
  | JString s => negb (String.eqb s "")
  | JArray items => match items with [] => false | _ => true end
  | JObject members => match members with [] => false | _ => true end
  end.

(** [list(j.keys())]: only a dict has [keys]. *)
Definition keys (j : JSON) : result (list string) :=
  match j with
  | JObject members => Ok (map fst members)
  | _ => Raise AttributeError
  end.

End Json.

(** The request, with the attributes the module reads.  [json] is the outcome
    of evaluating the property [req.json], which parses the body and raises
    [ValueError] when it is not JSON. *)
Module Request.
Record t : Type := mk {
  path : string;
  method : string;
  host_url : string;
  json : result JSON;
  environ : gmap string string
}.
End Request.

Module AuditMap.
Record t : Type := mk {
  path_kw : gmap string string;
  custom_actions : gmap string string;
  service_endpoints : gmap string string;
  default_target_endpoint_type : option string
}.
End AuditMap.

(** [pycadf.endpoint.Endpoint] *)
Module Endpoint.
Record t : Type := mk {
  url : string;
  name : string
}.
End Endpoint.

Module Service.
Record t : Type := mk {
  id : string;
  name : string;
  type : string;
  admin_endp : option Endpoint.t;
  public_endp : option Endpoint.t;
  private_endp : option Endpoint.t
}.
End Service.

(** [pycadf.resource.Resource] with the addresses added to it, in order. *)
Module Resource.
Record t : Type := mk {
  typeURI : string;
  id : string;
  name : string;
  addresses : list Endpoint.t
}.

Definition add_address (target : t) (addr : Endpoint.t) : t :=
  {| typeURI := typeURI target; id := id target; name := name target;
     addresses := addresses target ++ [addr] |}.
End Resource.

(** One element of a service entry's [endpoints] list: a dict in which each of
    the four keys may be missing. *)
Module EndpointUrls.
Record t : Type := mk {
  id : option string;
  adminURL : option string;
  internalURL : option string;
  publicURL : option string
}.
End EndpointUrls.

(** A service entry of the catalog. *)
Module CatalogEntry.
Record t : Type := mk {
  type : string;
  name : string;
  endpoints : list EndpointUrls.t
}.
End CatalogEntry.

(** The state of a config parser after [read_file]: the options of the
    [DEFAULT] section and the options of every other section. *)
Module ConfigParser.
Record t : Type := mk {
  defaults : gmap string string;
  sections : gmap string (gmap string string)
}.

Definition empty : t := {| defaults := ∅; sections := ∅ |}.

(** [map_conf.get('DEFAULT', option)] *)
Definition get_default (map_conf : t) (option : string) : result string :=
  match defaults map_conf !! option with
  | Some v => Ok v
  | None => Raise NoOptionError
  end.

(** [dict(map_conf.items(section))] for a section other than [DEFAULT]:
    the options of the section over those of [DEFAULT]. *)
Definition items (map_conf : t) (section : string)
    : result (gmap string string) :=
  match sections map_conf !! section with
  | Some opts => Ok (opts ∪ defaults map_conf)
  | None => Raise NoSectionError
  end.

End ConfigParser.

(** ** OpenStackAuditApi *)

Module OpenStackAuditApi.

(** The double quote, for the text of the warning. *)
Definition dq : string := String "034"%char EmptyString.

(** The warning of [get_target_resource]; [_LW] marks it for translation and
    leaves the text as it is. *)
Definition missing_catalog_warning : string :=
  "Unable to discover target information because " +:+
  "service catalog is missing. Either the incoming " +:+
  "request does not contain an auth token or auth " +:+
  "token does not contain a service catalog. For " +:+
  "the latter, please make sure the " +:+
  dq +:+ "include_service_catalog" +:+ dq +:+ " property in " +:+
  "auth_token middleware is set to " +:+ dq +:+ "True" +:+ dq.

(** [_clean_path]: clean path if path has json suffix. *)
Definition _clean_path (value : string) : string :=
  if Py.endswith value ".json" then Py.drop_last 5 value else value.

(** The last path segment [get_action] looks at (its [url_ending]). *)
Definition url_ending (req_path : string) : string :=
  let path :=
    if Py.endswith req_path "/" then Py.drop_last 1 req_path else req_path in
  _clean_path (Py.slice_from (Z.to_nat (Py.rfind path "/" + 1)) path).

(** [get_action] *)
Definition get_action (_MAP : AuditMap.t) (req : Request.t) : result string :=
  let url_ending := url_ending (Request.path req) in
  let method := Request.method req in
  match AuditMap.custom_actions _MAP
          !! (url_ending +:+ "/" +:+ Py.lower method) with
  | Some action => Ok action
  | None =>
    match AuditMap.custom_actions _MAP !! url_ending with
    | Some action => Ok action
    | None =>
      if String.eqb method "POST" then
        if String.eqb url_ending "action" then
          try_except
            (j ← Request.json req;
             if Json.truthy j then
               ks ← Json.keys j;
               body_action ← Py.first ks;
               Ok (taxonomy.ACTION_UPDATE +:+ "/" +:+ body_action)
             else Ok taxonomy.ACTION_CREATE)
            is_ValueError
            (fun _ => Ok taxonomy.ACTION_CREATE)
        else if negb (Py.contains (AuditMap.path_kw _MAP) url_ending) then
          Ok taxonomy.ACTION_UPDATE
        else Ok taxonomy.ACTION_CREATE
      else if String.eqb method "GET" then
        if Py.contains (AuditMap.path_kw _MAP) url_ending then
          Ok taxonomy.ACTION_LIST
        else Ok taxonomy.ACTION_READ
      else if String.eqb method "PUT" || String.eqb method "PATCH" then
        Ok taxonomy.ACTION_UPDATE
      else if String.eqb method "DELETE" then Ok taxonomy.ACTION_DELETE
      else if String.eqb method "HEAD" then Ok taxonomy.ACTION_READ
      else Ok taxonomy.UNKNOWN
    end
  end.

(** [_get_service_info] *)
Definition _get_service_info (_MAP : AuditMap.t) (endp : CatalogEntry.t)
    : result Service.t :=
  endpoint_urls ← Py.first (CatalogEntry.endpoints endp);
  Ok {| Service.type :=
          default taxonomy.UNKNOWN
            (AuditMap.service_endpoints _MAP !! CatalogEntry.type endp);
        Service.name := CatalogEntry.name endp;
        Service.id :=
          default (CatalogEntry.name endp) (EndpointUrls.id endpoint_urls);
        Service.admin_endp :=
          Some {| Endpoint.name := "admin";
                  Endpoint.url :=
                    default taxonomy.UNKNOWN
                      (EndpointUrls.adminURL endpoint_urls) |};
        Service.private_endp :=
          Some {| Endpoint.name := "private";
                  Endpoint.url :=
                    default taxonomy.UNKNOWN
                      (EndpointUrls.internalURL endpoint_urls) |};
        Service.public_endp :=
          Some {| Endpoint.name := "public";
                  Endpoint.url :=
                    default taxonomy.UNKNOWN
                      (EndpointUrls.publicURL endpoint_urls) |} |}.

(** One turn of the loop of [_build_typeURI], on the pair
    [(type_uri, prev_key)]. *)
Definition typeURI_step (path_kw : gmap string string)
    (st : string * option string) (key : string) : string * option string :=
  let '(type_uri, prev_key) := st in
  let key := _clean_path key in
  let type_uri :=
    if Py.contains path_kw key then type_uri +:+ "/" +:+ key
    else match prev_key ≫= (path_kw !!.) with
         | Some kw => type_uri +:+ "/" +:+ kw
         | None => type_uri
         end in
  (type_uri, Some key).

(** [_build_typeURI]: combines service type and corresponding path. *)
Definition _build_typeURI (_MAP : AuditMap.t) (req : Request.t)
    (service_type : string) : string :=
  let '(type_uri, _) :=
    fold_left (typeURI_step (AuditMap.path_kw _MAP))
              (Py.split "/" (Request.path req)) ("", None) in
  service_type +:+ type_uri.

(** [_build_target] *)
Definition _build_target (_MAP : AuditMap.t) (req : Request.t)
    (service : Service.t) : Resource.t :=
  let target_typeURI :=
    if negb (String.eqb (Service.type service) taxonomy.UNKNOWN)
    then _build_typeURI _MAP req (Service.type service)
    else Service.type service in
  let target :=
    {| Resource.typeURI := target_typeURI;
       Resource.id := Service.id service;
       Resource.name := Service.name service;
       Resource.addresses := [] |} in
  let target :=
    match Service.admin_endp service with
    | Some e => Resource.add_address target e
    | None => target
    end in
  let target :=
    match Service.private_endp service with
    | Some e => Resource.add_address target e
    | None => target
    end in
  let target :=
    match Service.public_endp service with
    | Some e => Resource.add_address target e
    | None => target
    end in
  target.

(** The [service_info] that [get_target_resource] starts from. *)
Definition unknown_service : Service.t :=
  {| Service.type := taxonomy.UNKNOWN; Service.name := taxonomy.UNKNOWN;
     Service.id := taxonomy.UNKNOWN; Service.admin_endp := None;
     Service.private_endp := None; Service.public_endp := None |}.

Section External.

(** [urlparse.urlparse(url).netloc] *)
Variable netloc : string -> string.

(** [ast.literal_eval] on the text of the catalog header, for catalogs
    that are lists of service entries. *)
Variable literal_eval : string -> result (list CatalogEntry.t).

(** The readable files, by path, with their text; and the parser's
    [read_file] on such a text. *)
Variable files : gmap string string.
Variable read_file : string -> result ConfigParser.t.

(** [open(cfg_file)] *)
Definition open_file (cfg_file : string) : result string :=
  match files !! cfg_file with
  | Some text => Ok text
  | None => Raise IOError
  end.

(** [__init__]: configure to recognize and map known api paths; the
    result is [self._MAP]. *)
Definition __init__ (cfg_file : option string) : result AuditMap.t :=
  match cfg_file with
  | Some cfg_path =>
    if Py.truthy cfg_file then
      try_except
        (f ← open_file cfg_path;
         map_conf ← read_file f;
         default_target_endpoint_type ←
           try_except
             (v ← ConfigParser.get_default map_conf "target_endpoint_type";
              Ok (Some v))
             is_NoOptionError (fun _ => Ok None);
         custom_actions ←
           try_except (ConfigParser.items map_conf "custom_actions")
             is_configparser_Error (fun _ => Ok ∅);
         path_kw ←
           try_except (ConfigParser.items map_conf "path_keywords")
             is_configparser_Error (fun _ => Ok ∅);
         endpoints ←
           try_except (ConfigParser.items map_conf "service_endpoints")
             is_configparser_Error (fun _ => Ok ∅);
         Ok {| AuditMap.path_kw := path_kw;
               AuditMap.custom_actions := custom_actions;
               AuditMap.service_endpoints := endpoints;
               AuditMap.default_target_endpoint_type :=
                 default_target_endpoint_type |})
        is_ParsingError
        (fun e =>
           match e with
           | ParsingError err =>
               Raise (PycadfAuditApiConfigError
                        ("Error parsing audit map file: " +:+ err))
           | _ => Raise e
           end)
    else Ok {| AuditMap.path_kw := ∅; AuditMap.custom_actions := ∅;
               AuditMap.service_endpoints := ∅;
               AuditMap.default_target_endpoint_type := None |}
  | None => Ok {| AuditMap.path_kw := ∅; AuditMap.custom_actions := ∅;
                  AuditMap.service_endpoints := ∅;
                  AuditMap.default_target_endpoint_type := None |}
  end.

(** The test of the loop of [get_target_resource]: the request's host
    against the entry's admin and public URLs. *)
Definition host_matches (req : Request.t) (endpoint_urls : EndpointUrls.t)
    : bool :=
  let admin_netloc := netloc (default "" (EndpointUrls.adminURL endpoint_urls)) in
  let public_netloc := netloc (default "" (EndpointUrls.publicURL endpoint_urls)) in
  let req_netloc := netloc (Request.host_url req) in
  String.eqb req_netloc admin_netloc || String.eqb req_netloc public_netloc.

(** [default_target_endpoint_type and endp['type'] == default_target_endpoint_type] *)
Definition is_default_type (_MAP : AuditMap.t) (endp : CatalogEntry.t)
    : bool :=
  Py.truthy (AuditMap.default_target_endpoint_type _MAP)
  && bool_decide (Some (CatalogEntry.type endp)
                  = AuditMap.default_target_endpoint_type _MAP).

(** The [for endp in catalog: ... else: ...] of [get_target_resource],
    from the entries still to visit and the current [default_endpoint]:
    [break] leaves with the matching entry, the [else] runs when the
    entries are exhausted. *)
Fixpoint scan_catalog (_MAP : AuditMap.t) (req : Request.t)
    (catalog : list CatalogEntry.t)
    (default_endpoint : option CatalogEntry.t) : result Service.t :=
  match catalog with
  | endp :: rest =>
      endpoint_urls ← Py.first (CatalogEntry.endpoints endp);
      if host_matches req endpoint_urls then _get_service_info _MAP endp
      else if is_default_type _MAP endp
           then scan_catalog _MAP req rest (Some endp)
           else scan_catalog _MAP req rest default_endpoint
  | [] =>
      match default_endpoint with
      | Some endp => _get_service_info _MAP endp
      | None => Ok unknown_service
      end
  end.

(** [get_target_resource]: the warnings logged and the target, or the
    exception that leaves the call. *)
Definition get_target_resource (_MAP : AuditMap.t) (req : Request.t)
    : list string * result Resource.t :=
  let resolve (catalog : list CatalogEntry.t) : result Resource.t :=
    service_info ← scan_catalog _MAP req catalog None;
    Ok (_build_target _MAP req service_info) in
  match v ← Py.getitem (Request.environ req) "HTTP_X_SERVICE_CATALOG";
        literal_eval v with
  | Ok catalog => ([], resolve catalog)
  | Raise e =>
      if is_KeyError e then ([missing_catalog_warning], resolve [])
      else ([], Raise e)
  end.

End External.

End OpenStackAuditApi.

(** ** The type URI as the specification words it *)

Module Spec.

(** What one path segment contributes: ['/<segment>'] when the segment is a
    path keyword, else ['/<pathKeywords[previous]>'] when the previous
    segment is one, else nothing. *)
Definition segment_part (pathKeywords : gmap string string)
    (previous : option string) (segment : string) : string :=
  match pathKeywords !! segment with
  | Some _ => "/" +:+ segment
  | None =>
      match previous with
      | Some p =>
          match pathKeywords !! p with
          | Some keyword => "/" +:+ keyword
          | None => ""
          end
      | None => ""
      end
  end.

(** The contributions of the segments, in path order. *)
Fixpoint segment_parts (pathKeywords : gmap string string)
    (previous : option string) (segments : list string) : list string :=
  match segments with
  | [] => []
  | segment :: rest =>
      segment_part pathKeywords previous segment
      :: segment_parts pathKeywords (Some segment) rest
  end.

(** The service type followed by the contributions of the segments of the
    path, each segment stripped of a [.json] suffix. *)
Definition typeURI (pathKeywords : gmap string string)
    (serviceType path : string) : string :=
  serviceType +:+
  fold_right String.append ""
    (segment_parts pathKeywords None
       (map OpenStackAuditApi._clean_path (Py.split "/" path))).

End Spec.

(** ** Vocabulary for the catalog scan *)

Module Catalog.

Import OpenStackAuditApi.

Section Scan.

Variable netloc : string -> string.
Variable req : Request.t.

(** The entry has a first endpoint and the request's host is the network
    location of its admin or public URL. *)
Definition matches_host (endp : CatalogEntry.t) : Prop :=
  ∃ endpoint_urls,
    head (CatalogEntry.endpoints endp) = Some endpoint_urls
    ∧ host_matches netloc req endpoint_urls = true.

(** The entry has a first endpoint and the request's host is neither. *)
Definition misses_host (endp : CatalogEntry.t) : Prop :=
  ∃ endpoint_urls,
    head (CatalogEntry.endpoints endp) = Some endpoint_urls
    ∧ host_matches netloc req endpoint_urls = false.

End Scan.

(** The [default_endpoint] after the loop has visited [catalog] without
    leaving it, from the one before. *)
Definition default_after (_MAP : AuditMap.t) (catalog : list CatalogEntry.t)
    (default_endpoint : option CatalogEntry.t) : option CatalogEntry.t :=
  fold_left
    (fun d endp => if is_default_type _MAP endp then Some endp else d)
    catalog default_endpoint.

(** The [else] of the loop. *)
Definition finish (_MAP : AuditMap.t)
    (default_endpoint : option CatalogEntry.t) : result Service.t :=
  match default_endpoint with
  | Some endp => _get_service_info _MAP endp
  | None => Ok unknown_service
  end.

(** The target every field of which is the unknown sentinel. *)
Definition unknown_target : Resource.t :=
  {| Resource.typeURI := "unknown"; Resource.id := "unknown";
     Resource.name := "unknown"; Resource.addresses := [] |}.

(** The audit map with nothing in it. *)
Definition empty_map : AuditMap.t :=
  {| AuditMap.path_kw := ∅; AuditMap.custom_actions := ∅;
     AuditMap.service_endpoints := ∅;
     AuditMap.default_target_endpoint_type := None |}.

End Catalog.

(** ** Concrete collaborators, for the examples *)

Module Collaborators.

(** The part of [s] before the first of the characters ['/'], ['?'] and
    ['#']. *)
Fixpoint authority (s : string) : string :=
  match s with
  | EmptyString => EmptyString
  | String a s' =>
      if Ascii.eqb a "/" || Ascii.eqb a "?" || Ascii.eqb a "#"
      then EmptyString
      else String a (authority s')
  end.

(** The characters of a URL scheme: letters, digits, ['+'], ['-'], ['.']. *)
Definition is_alpha (a : ascii) : bool :=
  let n := nat_of_ascii a in
  ((65 <=? n)%nat && (n <=? 90)%nat) || ((97 <=? n)%nat && (n <=? 122)%nat).

Definition is_scheme_char (a : ascii) : bool :=
  let n := nat_of_ascii a in
  is_alpha a || ((48 <=? n)%nat && (n <=? 57)%nat)
  || Ascii.eqb a "+" || Ascii.eqb a "-" || Ascii.eqb a ".".

(** What follows the [':'] that ends a run of scheme characters at the head
    of [s], when [s] starts with such a run. *)
Fixpoint after_scheme_chars (s : string) : option string :=
  match s with
  | EmptyString => None
  | String a s' =>
      if Ascii.eqb a ":" then Some s'
      else if is_scheme_char a then after_scheme_chars s' else None
  end.

(** The URL without its scheme, when it has one. *)
Definition after_scheme (url : string) : string :=
  match url with
  | String a _ =>
      if is_alpha a then default url (after_scheme_chars url) else url
  | EmptyString => url
  end.

(** A network location in the manner of [urlparse]: what stands between
    the ['//'] that follows the scheme and the next ['/'], ['?'] or ['#'];
    empty for a text without that ['//']. *)
Definition netloc (url : string) : string :=
  let rest := after_scheme url in
  if String.prefix "//" rest then authority (Py.slice_from 2 rest) else "".

(** The Python literal of a catalog: a list of dicts with string values
    (written without escapes, for values without quotes). *)
Definition join (sep : string) (parts : list string) : string :=
  match parts with
  | [] => ""
  | p :: ps => p +:+ fold_right (fun q acc => sep +:+ q +:+ acc) "" ps
  end.

Definition repr_item (key value : string) : string :=
  "'" +:+ key +:+ "': '" +:+ value +:+ "'".

Definition repr_optional (key : string) (value : option string)
    : list string :=
  match value with
  | Some v => [repr_item key v]
  | None => []
  end.

Definition repr_urls (u : EndpointUrls.t) : string :=
  "{" +:+ join ", " (repr_optional "id" (EndpointUrls.id u)
                     ++ repr_optional "adminURL" (EndpointUrls.adminURL u)
                     ++ repr_optional "internalURL" (EndpointUrls.internalURL u)
                     ++ repr_optional "publicURL" (EndpointUrls.publicURL u))
  +:+ "}".

Definition repr_entry (e : CatalogEntry.t) : string :=
  "{" +:+ repr_item "type" (CatalogEntry.type e) +:+ ", "
  +:+ repr_item "name" (CatalogEntry.name e) +:+ ", 'endpoints': ["
  +:+ join ", " (map repr_urls (CatalogEntry.endpoints e)) +:+ "]}".

Definition repr (catalog : list CatalogEntry.t) : string :=
  "[" +:+ join ", " (map repr_entry catalog) +:+ "]".

(** A reader of catalog headers that evaluates the literal of each of the
    listed catalogs to that catalog and rejects every other text. *)
Definition literal_eval (known : list (list CatalogEntry.t))
    (text : string) : result (list CatalogEntry.t) :=
  match find (fun catalog => String.eqb (repr catalog) text) known with
  | Some catalog => Ok catalog
  | None => Raise SyntaxError
  end.

(** A config reader that knows the parse of the listed texts and rejects
    every other text. *)
Definition read_file (known : gmap string ConfigParser.t) (text : string)
    : result ConfigParser.t :=
  match known !! text with
  | Some map_conf => Ok map_conf
  | None => Raise (ParsingError text)
  end.

End Collaborators.

(** ** Example data *)

Module Examples.

(** An audit map in the style of the nova API map. *)
Definition nova_map : AuditMap.t :=
  {| AuditMap.path_kw :=
       {[ "servers" := "server"; "images" := "image"; "action" := "None" ]};
     AuditMap.custom_actions :=
       {[ "os-migrations/get" := "read"; "detail" := "read/list" ]};
     AuditMap.service_endpoints :=
       {[ "compute" := "service/compute"; "image" := "service/storage/image" ]};
     AuditMap.default_target_endpoint_type := Some "compute" |}.

(** The same map with the entry [servers/post = boot]. *)
Definition boot_map : AuditMap.t :=
  {| AuditMap.path_kw := AuditMap.path_kw nova_map;
     AuditMap.custom_actions :=
       <[ "servers/post" := "boot" ]> (AuditMap.custom_actions nova_map);
     AuditMap.service_endpoints := AuditMap.service_endpoints nova_map;
     AuditMap.default_target_endpoint_type :=
       AuditMap.default_target_endpoint_type nova_map |}.

(** A request without a body and without a catalog. *)
Definition request (method path : string) : Request.t :=
  {| Request.path := path; Request.method := method;
     Request.host_url := "http://admin_host:8774";
     Request.json := Raise ValueError; Request.environ := ∅ |}.

(** A request with a parsed or unparsable body. *)
Definition request_with_body (method path : string) (body : result JSON)
    : Request.t :=
  {| Request.path := path; Request.method := method;
     Request.host_url := "http://admin_host:8774";
     Request.json := body; Request.environ := ∅ |}.

Definition nova : CatalogEntry.t :=
  {| CatalogEntry.type := "compute"; CatalogEntry.name := "nova";
     CatalogEntry.endpoints :=
       [{| EndpointUrls.id := Some "resource_id";
           EndpointUrls.adminURL := Some "http://admin_host:8774";
           EndpointUrls.internalURL := Some "http://internal_host:8774";
           EndpointUrls.publicURL := Some "http://public_host:8774" |}] |}.

Definition nova_west : CatalogEntry.t :=
  {| CatalogEntry.type := "compute"; CatalogEntry.name := "nova-west";
     CatalogEntry.endpoints :=
       [{| EndpointUrls.id := None;
           EndpointUrls.adminURL := Some "http://west_admin:8774/v2";
           EndpointUrls.internalURL := None;
           EndpointUrls.publicURL := Some "http://west_public:8774/v2" |}] |}.

Definition glance : CatalogEntry.t :=
  {| CatalogEntry.type := "image"; CatalogEntry.name := "glance";
     CatalogEntry.endpoints :=
       [{| EndpointUrls.id := Some "image_id";
           EndpointUrls.adminURL := Some "http://glance_host:9292";
           EndpointUrls.internalURL := None;
           EndpointUrls.publicURL := None |}] |}.

(** An entry with an empty [endpoints] list: visiting it raises. *)
Definition broken : CatalogEntry.t :=
  {| CatalogEntry.type := "volume"; CatalogEntry.name := "cinder";
     CatalogEntry.endpoints := [] |}.

(** The catalogs of the examples. *)
Definition known_catalogs : list (list CatalogEntry.t) :=
  [ [nova_west; glance; broken]; [nova; nova_west; glance]; [] ].

(** A GET request to [host_url] that carries [text] as its catalog. *)
Definition request_with_catalog (host_url text : string) : Request.t :=
  {| Request.path := "/v2/servers/7"; Request.method := "GET";
     Request.host_url := host_url; Request.json := Raise ValueError;
     Request.environ := {[ "HTTP_X_SERVICE_CATALOG" := text ]} |}.

(** A request to the host of [glance], with the catalog
    [nova_west; glance; broken]. *)
Definition glance_request : Request.t :=
  request_with_catalog "http://glance_host:9292"
    (Collaborators.repr [nova_west; glance; broken]).

(** A request to a host that no entry names, with the catalog
    [nova; nova_west; glance]. *)
Definition unmatched_request : Request.t :=
  request_with_catalog "http://elsewhere:8080"
    (Collaborators.repr [nova; nova_west; glance]).

(** The same request with the catalog [nova_west; glance; broken]. *)
Definition unmatched_broken_request : Request.t :=
  request_with_catalog "http://elsewhere:8080"
    (Collaborators.repr [nova_west; glance; broken]).

(** The map [boot_map] with the empty string for the default endpoint type,
    as the option [target_endpoint_type =] leaves it. *)
Definition boot_no_default_map : AuditMap.t :=
  {| AuditMap.path_kw := AuditMap.path_kw boot_map;
     AuditMap.custom_actions := AuditMap.custom_actions boot_map;
     AuditMap.service_endpoints := AuditMap.service_endpoints boot_map;
     AuditMap.default_target_endpoint_type := Some "" |}.

(** A request whose catalog header breaks off in the first entry. *)
Definition truncated_request : Request.t :=
  request_with_catalog "http://admin_host:8774" "[{'type': 'compute',".

(** The file system with one empty file, and a reader that knows the parse
    of the empty text. *)
Definition files : gmap string string := {[ "/etc/audit/empty.conf" := "" ]}.
Definition known_configs : gmap string ConfigParser.t :=
  {[ "" := ConfigParser.empty ]}.

(** The text of a small audit map file, and what it parses to. *)
Definition nl : string := String "010"%char EmptyString.

Definition audit_map_text : string :=
  "[DEFAULT]" +:+ nl +:+ "target_endpoint_type = compute" +:+ nl +:+
  "[path_keywords]" +:+ nl +:+ "servers = server" +:+ nl.

Definition audit_map_parsed : ConfigParser.t :=
  {| ConfigParser.defaults := {[ "target_endpoint_type" := "compute" ]};
     ConfigParser.sections :=
       {[ "path_keywords" := {[ "servers" := "server" ]} ]} |}.

(** A file system with that file and with a file that breaks off in a
    section header; a reader that knows the parse of the first. *)
Definition audit_files : gmap string string :=
  {[ "/etc/audit/api_audit_map.conf" := audit_map_text;
     "/etc/audit/broken.conf" := "[path_keywords" ]}.

Definition audit_configs : gmap string ConfigParser.t :=
  {[ audit_map_text := audit_map_parsed ]}.

End Examples.

(** * Properties *)

Import OpenStackAuditApi.

(** ** Auxiliary facts on strings *)

Lemma append_cons (a : ascii) (s t : string) :
  String a s +:+ t = String a (s +:+ t).
Proof. reflexivity. Qed.

Lemma append_nil_r (s : string) : s +:+ "" = s.
Proof.
  induction s as [|a s IH]; [reflexivity|].
  rewrite append_cons, IH. reflexivity.
Qed.

Lemma append_assoc (s t u : string) : (s +:+ t) +:+ u = s +:+ (t +:+ u).
Proof.
  induction s as [|a s IH]; [reflexivity|].
  rewrite !append_cons, IH. reflexivity.
Qed.

Lemma eqb_false_of_ne (s t : string) : s ≠ t → String.eqb s t = false.
Proof. apply String.eqb_neq. Qed.

Lemma length_append (s t : string) :
  String.length (s +:+ t) = (String.length s + String.length t)%nat.
Proof.
  induction s as [|a s IH]; [reflexivity|].
  rewrite append_cons. simpl. rewrite IH. reflexivity.
Qed.

Lemma substring_all (s : string) : substring 0 (String.length s) s = s.
Proof. induction s as [|a s IH]; simpl; [reflexivity | rewrite IH; reflexivity]. Qed.

Lemma substring_append_head (s t : string) :
  substring 0 (String.length s) (s +:+ t) = s.
Proof.
  induction s as [|a s IH].
  - destruct t; reflexivity.
  - rewrite append_cons. simpl. rewrite IH. reflexivity.
Qed.

Lemma substring_append_tail (s t : string) :
  substring (String.length s) (String.length t) (s +:+ t) = t.
Proof.
  induction s as [|a s IH]; [apply substring_all|].
  rewrite append_cons. simpl. exact IH.
Qed.

(** [(s + suffix).endswith(suffix)] *)
Lemma endswith_append (s suffix : string) :
  Py.endswith (s +:+ suffix) suffix = true.
Proof.
  unfold Py.endswith. rewrite length_append.
  replace (String.length s + String.length suffix - String.length suffix)%nat
    with (String.length s) by lia.
  rewrite substring_append_tail, String.eqb_refl.
  rewrite andb_true_r. apply Nat.leb_le. lia.
Qed.

(** [(s + suffix)[:-len(suffix)] == s] *)
Lemma drop_last_append (s suffix : string) :
  Py.drop_last (String.length suffix) (s +:+ suffix) = s.
Proof.
  unfold Py.drop_last. rewrite length_append.
  replace (String.length s + String.length suffix - String.length suffix)%nat
    with (String.length s) by lia.
  apply substring_append_head.
Qed.

(** ** The action classifier *)

(** The method is none of the names the dispatch compares it with: every
    comparison is false and the last branch is taken. *)
Ltac other_method Hnot :=
  rewrite !eqb_false_of_ne;
  [ reflexivity
  | intros Heq; apply Hnot; rewrite Heq; set_solver .. ].

(** When neither key is in [custom_actions], [get_action] is its dispatch on
    the method. *)
Lemma get_action_no_custom (_MAP : AuditMap.t) (req : Request.t) :
  AuditMap.custom_actions _MAP
    !! (url_ending (Request.path req) +:+ "/" +:+ Py.lower (Request.method req))
    = None →
  AuditMap.custom_actions _MAP !! url_ending (Request.path req) = None →
  get_action _MAP req =
    if String.eqb (Request.method req) "POST" then
      if String.eqb (url_ending (Request.path req)) "action" then
        try_except
          (j ← Request.json req;
           if Json.truthy j then
             ks ← Json.keys j;
             body_action ← Py.first ks;
             Ok ("update" +:+ "/" +:+ body_action)
           else Ok "create")
          is_ValueError (fun _ => Ok "create")
      else if Py.contains (AuditMap.path_kw _MAP) (url_ending (Request.path req))
           then Ok "create" else Ok "update"
    else if String.eqb (Request.method req) "GET" then
      if Py.contains (AuditMap.path_kw _MAP) (url_ending (Request.path req))
      then Ok "list" else Ok "read"
    else if String.eqb (Request.method req) "PUT"
            || String.eqb (Request.method req) "PATCH" then Ok "update"
    else if String.eqb (Request.method req) "DELETE" then Ok "delete"
    else if String.eqb (Request.method req) "HEAD" then Ok "read"
    else Ok "unknown".
Proof.
  intros Hm Hs. unfold get_action. rewrite Hm, Hs.
  destruct (Py.contains _ _); reflexivity.
Qed.

(** C3: when the last path segment matches no [custom_actions] key, the
    action follows from the method: POST gives [create] on a path keyword and
    [update] otherwise (the segment [action] apart); GET gives [list] on a
    path keyword and [read] otherwise; PUT and PATCH give [update]; DELETE
    gives [delete]; HEAD gives [read]; every other method gives [unknown]. *)
Theorem default_action_by_method (_MAP : AuditMap.t) (req : Request.t) :
  AuditMap.custom_actions _MAP
    !! (url_ending (Request.path req) +:+ "/" +:+ Py.lower (Request.method req))
    = None →
  AuditMap.custom_actions _MAP !! url_ending (Request.path req) = None →
  (Request.method req = "POST" → url_ending (Request.path req) ≠ "action" →
     get_action _MAP req =
       Ok (if Py.contains (AuditMap.path_kw _MAP) (url_ending (Request.path req))
           then "create" else "update"))
  ∧ (Request.method req = "GET" →
       get_action _MAP req =
         Ok (if Py.contains (AuditMap.path_kw _MAP) (url_ending (Request.path req))
             then "list" else "read"))
  ∧ (Request.method req = "PUT" ∨ Request.method req = "PATCH" →
       get_action _MAP req = Ok "update")
  ∧ (Request.method req = "DELETE" → get_action _MAP req = Ok "delete")
  ∧ (Request.method req = "HEAD" → get_action _MAP req = Ok "read")
  ∧ (Request.method req ∉ ["POST"; "GET"; "PUT"; "PATCH"; "DELETE"; "HEAD"] →
       get_action _MAP req = Ok "unknown").
Proof.
  intros Hm Hs. rewrite (get_action_no_custom _ _ Hm Hs).
  repeat split.
  - intros -> Hne. rewrite (eqb_false_of_ne _ _ Hne). simpl.
    destruct (Py.contains _ _); reflexivity.
  - intros ->. simpl. destruct (Py.contains _ _); reflexivity.
  - intros [-> | ->]; reflexivity.
  - intros ->; reflexivity.
  - intros ->; reflexivity.
  - intros Hnot. other_method Hnot.
Qed.

Lemma default_action_by_method_witness :
  get_action Examples.nova_map (Examples.request "POST" "/v2/servers") = Ok "create"
  ∧ get_action Examples.nova_map (Examples.request "POST" "/v2/servers/7") = Ok "update"
  ∧ get_action Examples.nova_map (Examples.request "GET" "/v2/servers/") = Ok "list"
  ∧ get_action Examples.nova_map (Examples.request "GET" "/v2/servers/7.json") = Ok "read"
  ∧ get_action Examples.nova_map (Examples.request "PUT" "/v2/servers/7") = Ok "update"
  ∧ get_action Examples.nova_map (Examples.request "PATCH" "/v2/servers/7") = Ok "update"
  ∧ get_action Examples.nova_map (Examples.request "DELETE" "/v2/servers/7") = Ok "delete"
  ∧ get_action Examples.nova_map (Examples.request "HEAD" "/v2/servers/7") = Ok "read"
  ∧ get_action Examples.nova_map (Examples.request "OPTIONS" "/v2/servers/7") = Ok "unknown".
Proof.
  pose proof (fun method path Hm Hs =>
    default_action_by_method Examples.nova_map (Examples.request method path) Hm Hs)
    as by_method.
  repeat (apply conj).
  - refine (proj1 (by_method "POST" "/v2/servers" _ _) _ _);
      [reflexivity | reflexivity | reflexivity | discriminate].
  - refine (proj1 (by_method "POST" "/v2/servers/7" _ _) _ _);
      [reflexivity | reflexivity | reflexivity | discriminate].
  - refine (proj1 (proj2 (by_method "GET" "/v2/servers/" _ _)) _); reflexivity.
  - refine (proj1 (proj2 (by_method "GET" "/v2/servers/7.json" _ _)) _); reflexivity.
  - refine (proj1 (proj2 (proj2 (by_method "PUT" "/v2/servers/7" _ _))) _);
      [reflexivity | reflexivity | left; reflexivity].
  - refine (proj1 (proj2 (proj2 (by_method "PATCH" "/v2/servers/7" _ _))) _);
      [reflexivity | reflexivity | right; reflexivity].
  - refine (proj1 (proj2 (proj2 (proj2 (by_method "DELETE" "/v2/servers/7" _ _)))) _);
      reflexivity.
  - refine (proj1 (proj2 (proj2 (proj2 (proj2 (by_method "HEAD" "/v2/servers/7" _ _))))) _);
      reflexivity.
  - refine (proj2 (proj2 (proj2 (proj2 (proj2 (by_method "OPTIONS" "/v2/servers/7" _ _))))) _);
      [reflexivity | reflexivity | ].
    apply (bool_decide_unpack _). vm_compute. exact I.
Defined.

(** C4: on a POST whose last segment is [action] and matches no
    [custom_actions] key, a body that parses to a non-empty object gives
    [update/] followed by the object's first key; an empty body or a body
    that does not parse gives [create], and nothing is raised. *)
Theorem post_action_reads_body (_MAP : AuditMap.t) (req : Request.t) :
  Request.method req = "POST" →
  url_ending (Request.path req) = "action" →
  AuditMap.custom_actions _MAP
    !! (url_ending (Request.path req) +:+ "/" +:+ Py.lower (Request.method req))
    = None →
  AuditMap.custom_actions _MAP !! url_ending (Request.path req) = None →
  (∀ key value rest,
     Request.json req = Ok (JObject ((key, value) :: rest)) →
     get_action _MAP req = Ok ("update/" +:+ key))
  ∧ (∀ j, Request.json req = Ok j → Json.truthy j = false →
       get_action _MAP req = Ok "create")
  ∧ (Request.json req = Raise ValueError → get_action _MAP req = Ok "create").
Proof.
  intros Hmethod Hseg Hm Hs. rewrite (get_action_no_custom _ _ Hm Hs).
  rewrite Hmethod, Hseg. simpl. repeat apply conj.
  - intros key value rest ->. reflexivity.
  - intros j -> Hfalse. simpl. rewrite Hfalse. reflexivity.
  - intros ->. reflexivity.
Qed.

Lemma post_action_reads_body_witness :
  get_action Examples.nova_map
    (Examples.request_with_body "POST" "/v2/servers/7/action"
       (Ok (JObject [("reboot", JObject [("type", JString "SOFT")]);
                     ("extra", JNull)])))
    = Ok "update/reboot"
  ∧ get_action Examples.nova_map
      (Examples.request_with_body "POST" "/v2/servers/7/action" (Ok (JObject [])))
      = Ok "create"
  ∧ get_action Examples.nova_map
      (Examples.request_with_body "POST" "/v2/servers/7/action" (Raise ValueError))
      = Ok "create".
Proof.
  pose proof (fun body =>
    post_action_reads_body Examples.nova_map
      (Examples.request_with_body "POST" "/v2/servers/7/action" body)
      eq_refl eq_refl eq_refl eq_refl) as by_body.
  repeat apply conj.
  - exact (proj1 (by_body _) _ _ _ eq_refl).
  - exact (proj1 (proj2 (by_body (Ok (JObject [])))) (JObject []) eq_refl eq_refl).
  - exact (proj2 (proj2 (by_body (Raise ValueError))) eq_refl).
Defined.

(** A body that parses to a non-empty value other than an object leaves
    [get_action] with the [AttributeError] of its [keys]. *)
Example post_action_list_body :
  get_action Examples.nova_map
    (Examples.request_with_body "POST" "/v2/servers/7/action"
       (Ok (JArray [JString "reboot"])))
  = Raise AttributeError.
Proof. reflexivity. Qed.

(** C8: a [custom_actions] entry under the last segment, ['/'] and the
    lowercased method is returned before every other rule; failing that, an
    entry under the bare last segment is returned; the entry
    [servers/post = boot] makes POST /servers classify as [boot]. *)
Theorem custom_action_precedence (_MAP : AuditMap.t) (req : Request.t) :
  (∀ action,
     AuditMap.custom_actions _MAP
       !! (url_ending (Request.path req) +:+ "/" +:+ Py.lower (Request.method req))
       = Some action →
     get_action _MAP req = Ok action)
  ∧ (∀ action,
       AuditMap.custom_actions _MAP
         !! (url_ending (Request.path req) +:+ "/" +:+ Py.lower (Request.method req))
         = None →
       AuditMap.custom_actions _MAP !! url_ending (Request.path req) = Some action →
       get_action _MAP req = Ok action)
  ∧ (AuditMap.custom_actions _MAP !! "servers/post" = Some "boot" →
     Request.method req = "POST" → Request.path req = "/servers" →
     get_action _MAP req = Ok "boot").
Proof.
  repeat apply conj.
  - intros action H. unfold get_action. rewrite H. reflexivity.
  - intros action Hm Hs. unfold get_action. rewrite Hm, Hs. reflexivity.
  - intros H Hmethod Hpath. unfold get_action. rewrite Hmethod, Hpath.
    change (url_ending "/servers" +:+ "/" +:+ Py.lower "POST") with "servers/post".
    rewrite H. reflexivity.
Qed.

Lemma custom_action_precedence_witness :
  get_action Examples.boot_map (Examples.request "POST" "/servers") = Ok "boot"
  ∧ get_action Examples.nova_map (Examples.request "POST" "/servers") = Ok "create"
  ∧ get_action Examples.nova_map (Examples.request "GET" "/v2/os-migrations")
    = Ok "read"
  ∧ get_action Examples.nova_map (Examples.request "POST" "/v2/servers/detail")
    = Ok "read/list".
Proof.
  repeat apply conj.
  - exact (proj2 (proj2 (custom_action_precedence Examples.boot_map
                           (Examples.request "POST" "/servers")))
             eq_refl eq_refl eq_refl).
  - reflexivity.
  - exact (proj1 (custom_action_precedence Examples.nova_map
                    (Examples.request "GET" "/v2/os-migrations")) _ eq_refl).
  - exact (proj1 (proj2 (custom_action_precedence Examples.nova_map
                           (Examples.request "POST" "/v2/servers/detail")))
             _ eq_refl eq_refl).
Defined.

(** C10: the dispatch on the method is case-sensitive: a method that is not
    one of the six upper-case names, on a last segment that matches no
    [custom_actions] key, gives [unknown]. *)
Theorem method_dispatch_case_sensitive (_MAP : AuditMap.t) (req : Request.t) :
  Request.method req ∉ ["POST"; "GET"; "PUT"; "PATCH"; "DELETE"; "HEAD"] →
  AuditMap.custom_actions _MAP
    !! (url_ending (Request.path req) +:+ "/" +:+ Py.lower (Request.method req))
    = None →
  AuditMap.custom_actions _MAP !! url_ending (Request.path req) = None →
  get_action _MAP req = Ok "unknown".
Proof.
  intros Hnot Hm Hs. rewrite (get_action_no_custom _ _ Hm Hs).
  other_method Hnot.
Qed.

Lemma method_dispatch_case_sensitive_witness :
  get_action Examples.nova_map (Examples.request "get" "/v2/servers/7")
  = Ok "unknown".
Proof.
  apply method_dispatch_case_sensitive; [|reflexivity|reflexivity].
  apply (bool_decide_unpack _). vm_compute. exact I.
Defined.

(** The key into [custom_actions] carries the method in lower case while the
    dispatch compares it as it came: [GET] and [get] find the same entry. *)
Example custom_key_lowercases_method :
  get_action Examples.nova_map (Examples.request "GET" "/v2/os-migrations")
  = Ok "read"
  ∧ get_action Examples.nova_map (Examples.request "get" "/v2/os-migrations")
    = Ok "read".
Proof. split; reflexivity. Qed.

(** C9, as it holds: for a path that ends with one ['/'], not two, the
    action of the path and the action of the path without its last character
    are the same. *)
Theorem trailing_slash_stripped_once (_MAP : AuditMap.t)
    (p method host_url : string) (json : result JSON)
    (environ : gmap string string) :
  Py.endswith p "/" = true →
  Py.endswith (Py.drop_last 1 p) "/" = false →
  get_action _MAP (Request.mk p method host_url json environ)
  = get_action _MAP (Request.mk (Py.drop_last 1 p) method host_url json environ).
Proof.
  intros Hslash Hone. unfold get_action, url_ending. simpl.
  rewrite Hslash, Hone. reflexivity.
Qed.

Lemma trailing_slash_stripped_once_witness :
  get_action Examples.nova_map (Examples.request "GET" "/v2/servers/")
  = get_action Examples.nova_map (Examples.request "GET" "/v2/servers").
Proof.
  exact (trailing_slash_stripped_once Examples.nova_map "/v2/servers/" "GET"
           "http://admin_host:8774" (Raise ValueError) ∅ eq_refl eq_refl).
Defined.

(** The same, from the side of the shorter path: appending one ['/'] to a
    path that does not end with ['/'] leaves the action as it is. *)
Corollary trailing_slash_appended (_MAP : AuditMap.t)
    (q method host_url : string) (json : result JSON)
    (environ : gmap string string) :
  Py.endswith q "/" = false →
  get_action _MAP (Request.mk (q +:+ "/") method host_url json environ)
  = get_action _MAP (Request.mk q method host_url json environ).
Proof.
  intros Hq.
  pose proof (drop_last_append q "/") as Hdrop. simpl in Hdrop.
  unfold get_action, url_ending. simpl.
  rewrite (endswith_append q "/"), Hdrop, Hq. reflexivity.
Qed.

(** C9, as stated, fails on a path that ends with two slashes: one slash is
    stripped from each of [p] and [p[:-1]], and the last segments differ. *)
Lemma trailing_slash_double_counterexample :
  Py.endswith "/v2/servers//" "/" = true
  ∧ Py.drop_last 1 "/v2/servers//" = "/v2/servers/"
  ∧ get_action Examples.nova_map (Examples.request "GET" "/v2/servers//")
    = Ok "read"
  ∧ get_action Examples.nova_map
      (Examples.request "GET" (Py.drop_last 1 "/v2/servers//"))
    = Ok "list"
  ∧ get_action Examples.nova_map (Examples.request "GET" "/v2/servers//")
    ≠ get_action Examples.nova_map
        (Examples.request "GET" (Py.drop_last 1 "/v2/servers//")).
Proof. repeat apply conj; try reflexivity. discriminate. Qed.

(** ** The type URI of the target *)

Section TypeURI.

Variable path_kw : gmap string string.

(** One turn of the loop appends the contribution of its segment and hands
    the cleaned segment to the next turn. *)
Lemma typeURI_step_part (type_uri : string) (prev_key : option string)
    (key : string) :
  typeURI_step path_kw (type_uri, prev_key) key
  = (type_uri +:+ Spec.segment_part path_kw prev_key (_clean_path key),
     Some (_clean_path key)).
Proof.
  unfold typeURI_step, Spec.segment_part, Py.contains.
  destruct (path_kw !! _clean_path key) as [kw|]; [reflexivity|].
  destruct prev_key as [p|]; simpl.
  - destruct (path_kw !! p); [reflexivity|]. rewrite append_nil_r. reflexivity.
  - rewrite append_nil_r. reflexivity.
Qed.

Lemma typeURI_loop_parts (keys : list string) :
  ∀ (type_uri : string) (prev_key : option string),
    fst (fold_left (typeURI_step path_kw) keys (type_uri, prev_key))
    = type_uri +:+
      fold_right String.append ""
        (Spec.segment_parts path_kw prev_key (map _clean_path keys)).
Proof.
  induction keys as [|key keys IH]; intros type_uri prev_key.
  - simpl. rewrite append_nil_r. reflexivity.
  - cbn [fold_left map Spec.segment_parts fold_right].
    rewrite typeURI_step_part, IH, append_assoc. reflexivity.
Qed.

End TypeURI.

Lemma _build_typeURI_spec (_MAP : AuditMap.t) (req : Request.t)
    (service_type : string) :
  _build_typeURI _MAP req service_type
  = Spec.typeURI (AuditMap.path_kw _MAP) service_type (Request.path req).
Proof.
  unfold _build_typeURI, Spec.typeURI.
  pose proof (typeURI_loop_parts (AuditMap.path_kw _MAP)
                (Py.split "/" (Request.path req)) "" None) as Hloop.
  destruct (fold_left _ _ _) as [type_uri prev_key]. simpl in Hloop.
  rewrite Hloop. reflexivity.
Qed.

Lemma _build_target_fields (_MAP : AuditMap.t) (req : Request.t)
    (service : Service.t) :
  Resource.typeURI (_build_target _MAP req service)
  = (if negb (String.eqb (Service.type service) taxonomy.UNKNOWN)
     then _build_typeURI _MAP req (Service.type service)
     else Service.type service)
  ∧ Resource.id (_build_target _MAP req service) = Service.id service
  ∧ Resource.name (_build_target _MAP req service) = Service.name service.
Proof.
  unfold _build_target.
  destruct (Service.admin_endp service), (Service.private_endp service),
    (Service.public_endp service); repeat apply conj; reflexivity.
Qed.

(** C5: the target's typeURI is the literal [unknown] when the service type
    is the unknown sentinel, and otherwise the service type followed, for each
    ['/']-split segment of the path stripped of a [.json] suffix, in path
    order, by ['/<segment>'] when the segment is a path keyword, else by
    ['/<pathKeywords[previous segment]>'] when the previous segment is one,
    else by nothing. *)
Theorem target_typeURI_follows_path (_MAP : AuditMap.t) (req : Request.t)
    (service : Service.t) :
  Resource.typeURI (_build_target _MAP req service)
  = if String.eqb (Service.type service) "unknown" then "unknown"
    else Spec.typeURI (AuditMap.path_kw _MAP) (Service.type service)
           (Request.path req).
Proof.
  rewrite (proj1 (_build_target_fields _MAP req service)).
  unfold taxonomy.UNKNOWN.
  destruct (String.eqb_spec (Service.type service) "unknown") as [Heq|Hne]; simpl.
  - exact Heq.
  - apply _build_typeURI_spec.
Qed.

Example target_typeURI_servers :
  Spec.typeURI (AuditMap.path_kw Examples.nova_map) "service/compute"
    "/v2/servers/7.json/action"
  = "service/compute/servers/server/action".
Proof. reflexivity. Qed.

(** ** The catalog scan *)

Section CatalogScan.

Variable netloc : string -> string.
Variable _MAP : AuditMap.t.
Variable req : Request.t.

Lemma first_of_head {A : Type} (l : list A) (x : A) :
  head l = Some x → Py.first l = Ok x.
Proof. destruct l; simpl; congruence. Qed.

(** With a matching first endpoint the entry is always described. *)
Lemma _get_service_info_defined (endp : CatalogEntry.t)
    (endpoint_urls : EndpointUrls.t) :
  head (CatalogEntry.endpoints endp) = Some endpoint_urls →
  ∃ service_info, _get_service_info _MAP endp = Ok service_info.
Proof.
  intros H. unfold _get_service_info. rewrite (first_of_head _ _ H).
  eexists. reflexivity.
Qed.

(** An entry that misses the host is passed over; it becomes the
    [default_endpoint] when its type is the default type. *)
Lemma scan_catalog_miss (endp : CatalogEntry.t) (rest : list CatalogEntry.t)
    (default_endpoint : option CatalogEntry.t) :
  Catalog.misses_host netloc req endp →
  scan_catalog netloc _MAP req (endp :: rest) default_endpoint
  = scan_catalog netloc _MAP req rest
      (if is_default_type _MAP endp then Some endp else default_endpoint).
Proof.
  intros (urls & Hhead & Hmiss). simpl.
  rewrite (first_of_head _ _ Hhead). simpl. rewrite Hmiss.
  destruct (is_default_type _MAP endp); reflexivity.
Qed.

(** An entry that matches the host ends the loop. *)
Lemma scan_catalog_hit (endp : CatalogEntry.t) (rest : list CatalogEntry.t)
    (default_endpoint : option CatalogEntry.t) :
  Catalog.matches_host netloc req endp →
  scan_catalog netloc _MAP req (endp :: rest) default_endpoint
  = _get_service_info _MAP endp.
Proof.
  intros (urls & Hhead & Hhit). simpl.
  rewrite (first_of_head _ _ Hhead). simpl. rewrite Hhit. reflexivity.
Qed.

Lemma scan_catalog_first_hit (pre : list CatalogEntry.t)
    (endp : CatalogEntry.t) (post : list CatalogEntry.t) :
  Forall (Catalog.misses_host netloc req) pre →
  Catalog.matches_host netloc req endp →
  ∀ default_endpoint,
    scan_catalog netloc _MAP req (pre ++ endp :: post) default_endpoint
    = _get_service_info _MAP endp.
Proof.
  intros Hpre Hhit. induction Hpre as [|e pre He _ IH]; intros d.
  - apply scan_catalog_hit, Hhit.
  - rewrite <- app_comm_cons, (scan_catalog_miss _ _ _ He). apply IH.
Qed.

(** Without a match the loop runs to its [else] with the default endpoint
    the entries leave behind. *)
Lemma scan_catalog_no_hit (catalog : list CatalogEntry.t) :
  Forall (Catalog.misses_host netloc req) catalog →
  ∀ default_endpoint,
    scan_catalog netloc _MAP req catalog default_endpoint
    = Catalog.finish _MAP (Catalog.default_after _MAP catalog default_endpoint).
Proof.
  intros Hall. induction Hall as [|e catalog He _ IH]; intros d.
  - reflexivity.
  - rewrite (scan_catalog_miss _ _ _ He). apply IH.
Qed.

Lemma is_default_type_true (endp : CatalogEntry.t) (t : string) :
  AuditMap.default_target_endpoint_type _MAP = Some t → t ≠ "" →
  CatalogEntry.type endp = t → is_default_type _MAP endp = true.
Proof.
  intros Hd Hne Ht. unfold is_default_type. rewrite Hd, Ht. simpl.
  rewrite (eqb_false_of_ne _ _ Hne). simpl.
  apply bool_decide_eq_true. reflexivity.
Qed.

Lemma is_default_type_false (endp : CatalogEntry.t) (t : string) :
  AuditMap.default_target_endpoint_type _MAP = Some t →
  CatalogEntry.type endp ≠ t → is_default_type _MAP endp = false.
Proof.
  intros Hd Ht. unfold is_default_type. rewrite Hd.
  apply andb_false_iff. right. apply bool_decide_eq_false. congruence.
Qed.

(** Entries of other types leave the default endpoint as it is. *)
Lemma default_after_other_types (post : list CatalogEntry.t) (t : string) :
  AuditMap.default_target_endpoint_type _MAP = Some t →
  Forall (fun e => CatalogEntry.type e ≠ t) post →
  ∀ default_endpoint,
    Catalog.default_after _MAP post default_endpoint = default_endpoint.
Proof.
  intros Hd Hpost. induction Hpost as [|e post He _ IH]; intros d.
  - reflexivity.
  - unfold Catalog.default_after in *. simpl.
    rewrite (is_default_type_false _ _ Hd He). apply IH.
Qed.

(** The default endpoint is the last entry of the default type. *)
Lemma default_after_last (pre : list CatalogEntry.t) (endp : CatalogEntry.t)
    (post : list CatalogEntry.t) (t : string) :
  AuditMap.default_target_endpoint_type _MAP = Some t → t ≠ "" →
  CatalogEntry.type endp = t →
  Forall (fun e => CatalogEntry.type e ≠ t) post →
  ∀ default_endpoint,
    Catalog.default_after _MAP (pre ++ endp :: post) default_endpoint
    = Some endp.
Proof.
  intros Hd Hne Ht Hpost d. unfold Catalog.default_after.
  rewrite fold_left_app. simpl.
  rewrite (is_default_type_true _ _ Hd Hne Ht).
  apply (default_after_other_types post t Hd Hpost).
Qed.

End CatalogScan.

Section TargetResolution.

Variable netloc : string -> string.
Variable literal_eval : string -> result (list CatalogEntry.t).
Variable _MAP : AuditMap.t.
Variable req : Request.t.

(** With a catalog header that evaluates, the target is built from what
    the scan selects, and nothing is logged. *)
Lemma get_target_resource_catalog (text : string)
    (catalog : list CatalogEntry.t) :
  Request.environ req !! "HTTP_X_SERVICE_CATALOG" = Some text →
  literal_eval text = Ok catalog →
  get_target_resource netloc literal_eval _MAP req
  = ([], service_info ← scan_catalog netloc _MAP req catalog None;
         Ok (_build_target _MAP req service_info)).
Proof.
  intros Henv Heval. unfold get_target_resource, Py.getitem.
  rewrite Henv. simpl. rewrite Heval. reflexivity.
Qed.

End TargetResolution.

(** C1: the first catalog entry whose first endpoint's admin or public URL
    has the network location of the request's host is selected at once:
    whatever follows it is not visited, and the target is built from that
    entry, also when an entry of the default endpoint type comes before it. *)
Theorem first_host_match_selected (netloc : string -> string)
    (literal_eval : string -> result (list CatalogEntry.t))
    (_MAP : AuditMap.t) (req : Request.t) (text : string)
    (pre : list CatalogEntry.t) (endp : CatalogEntry.t)
    (post : list CatalogEntry.t) :
  Request.environ req !! "HTTP_X_SERVICE_CATALOG" = Some text →
  literal_eval text = Ok (pre ++ endp :: post)%list →
  Forall (Catalog.misses_host netloc req) pre →
  Catalog.matches_host netloc req endp →
  ∃ service_info,
    _get_service_info _MAP endp = Ok service_info
    ∧ get_target_resource netloc literal_eval _MAP req
      = ([], Ok (_build_target _MAP req service_info)).
Proof.
  intros Henv Heval Hpre Hhit.
  destruct Hhit as (urls & Hhead & Hmatch).
  destruct (_get_service_info_defined _MAP endp urls Hhead) as [info Hinfo].
  exists info. split; [exact Hinfo|].
  rewrite (get_target_resource_catalog _ _ _ _ _ _ Henv Heval).
  rewrite (scan_catalog_first_hit netloc _MAP req pre endp post Hpre
             (ex_intro _ urls (conj Hhead Hmatch)) None).
  rewrite Hinfo. reflexivity.
Qed.

Lemma first_host_match_selected_witness :
  ∃ service_info,
    _get_service_info Examples.nova_map Examples.glance = Ok service_info
    ∧ get_target_resource Collaborators.netloc
        (Collaborators.literal_eval Examples.known_catalogs)
        Examples.nova_map Examples.glance_request
      = ([], Ok (_build_target Examples.nova_map Examples.glance_request
                   service_info)).
Proof.
  apply (first_host_match_selected Collaborators.netloc
           (Collaborators.literal_eval Examples.known_catalogs)
           Examples.nova_map Examples.glance_request
           (Collaborators.repr
              [Examples.nova_west; Examples.glance; Examples.broken])
           [Examples.nova_west] Examples.glance [Examples.broken]).
  - vm_compute. reflexivity.
  - vm_compute. reflexivity.
  - constructor; [|constructor].
    eexists; split; vm_compute; reflexivity.
  - eexists; split; vm_compute; reflexivity.
Defined.

(** The entry before the match has the default endpoint type, and the entry
    after it cannot be visited without an [IndexError]. *)
Example glance_request_target :
  is_default_type Examples.nova_map Examples.nova_west = true
  ∧ get_target_resource Collaborators.netloc
      (Collaborators.literal_eval Examples.known_catalogs)
      Examples.nova_map Examples.glance_request
    = ([], Ok {| Resource.typeURI := "service/storage/image/servers/server";
                 Resource.id := "image_id"; Resource.name := "glance";
                 Resource.addresses :=
                   [ {| Endpoint.url := "http://glance_host:9292";
                        Endpoint.name := "admin" |};
                     {| Endpoint.url := "unknown"; Endpoint.name := "private" |};
                     {| Endpoint.url := "unknown"; Endpoint.name := "public" |} ] |}).
Proof. split; vm_compute; reflexivity. Qed.

(** C2, as it holds: when no entry matches the request's host and the
    default endpoint type is configured (set and not empty), the target is
    built from the last entry of that type in catalog order. *)
Theorem last_default_type_entry_selected (netloc : string -> string)
    (literal_eval : string -> result (list CatalogEntry.t))
    (_MAP : AuditMap.t) (req : Request.t) (text t : string)
    (pre : list CatalogEntry.t) (endp : CatalogEntry.t)
    (post : list CatalogEntry.t) :
  Request.environ req !! "HTTP_X_SERVICE_CATALOG" = Some text →
  literal_eval text = Ok (pre ++ endp :: post)%list →
  Forall (Catalog.misses_host netloc req) (pre ++ endp :: post) →
  AuditMap.default_target_endpoint_type _MAP = Some t → t ≠ "" →
  CatalogEntry.type endp = t →
  Forall (fun e => CatalogEntry.type e ≠ t) post →
  ∃ service_info,
    _get_service_info _MAP endp = Ok service_info
    ∧ get_target_resource netloc literal_eval _MAP req
      = ([], Ok (_build_target _MAP req service_info)).
Proof.
  intros Henv Heval Hall Hd Hne Ht Hpost.
  assert (Catalog.misses_host netloc req endp) as (urls & Hhead & _).
  { apply Forall_app in Hall as [_ Hrest]. apply Forall_cons in Hrest as [He _].
    exact He. }
  destruct (_get_service_info_defined _MAP endp urls Hhead) as [info Hinfo].
  exists info. split; [exact Hinfo|].
  rewrite (get_target_resource_catalog _ _ _ _ _ _ Henv Heval).
  rewrite (scan_catalog_no_hit netloc _MAP req _ Hall None).
  rewrite (default_after_last _MAP pre endp post t Hd Hne Ht Hpost None).
  simpl. rewrite Hinfo. reflexivity.
Qed.

Lemma last_default_type_entry_selected_witness :
  ∃ service_info,
    _get_service_info Examples.nova_map Examples.nova_west = Ok service_info
    ∧ get_target_resource Collaborators.netloc
        (Collaborators.literal_eval Examples.known_catalogs)
        Examples.nova_map Examples.unmatched_request
      = ([], Ok (_build_target Examples.nova_map Examples.unmatched_request
                   service_info)).
Proof.
  apply (last_default_type_entry_selected Collaborators.netloc
           (Collaborators.literal_eval Examples.known_catalogs)
           Examples.nova_map Examples.unmatched_request
           (Collaborators.repr
              [Examples.nova; Examples.nova_west; Examples.glance])
           "compute" [Examples.nova] Examples.nova_west [Examples.glance]).
  - vm_compute. reflexivity.
  - vm_compute. reflexivity.
  - repeat (constructor; [eexists; split; vm_compute; reflexivity|]).
    constructor.
  - reflexivity.
  - discriminate.
  - reflexivity.
  - constructor; [discriminate | constructor].
Defined.

(** C2, as stated, fails on a catalog with two entries of the default type:
    no entry matches the host, [nova] is the first entry of type [compute],
    and the target is built from [nova_west], not from [nova]. *)
Lemma first_default_type_entry_counterexample :
  Forall (Catalog.misses_host Collaborators.netloc Examples.unmatched_request)
    [Examples.nova; Examples.nova_west; Examples.glance]
  ∧ AuditMap.default_target_endpoint_type Examples.nova_map = Some "compute"
  ∧ CatalogEntry.type Examples.nova = "compute"
  ∧ Resource.name
      <$> (get_target_resource Collaborators.netloc
             (Collaborators.literal_eval Examples.known_catalogs)
             Examples.nova_map Examples.unmatched_request).2
    = Ok "nova-west"
  ∧ ¬ ∃ service_info,
        _get_service_info Examples.nova_map Examples.nova = Ok service_info
        ∧ get_target_resource Collaborators.netloc
            (Collaborators.literal_eval Examples.known_catalogs)
            Examples.nova_map Examples.unmatched_request
          = ([], Ok (_build_target Examples.nova_map Examples.unmatched_request
                       service_info)).
Proof.
  repeat apply conj.
  - repeat (constructor; [eexists; split; vm_compute; reflexivity|]).
    constructor.
  - reflexivity.
  - reflexivity.
  - vm_compute. reflexivity.
  - intros (service_info & Hinfo & Htarget).
    vm_compute in Hinfo. injection Hinfo as <-.
    vm_compute in Htarget. discriminate Htarget.
Qed.

(** ** A missing or unreadable catalog *)

(** C6, as it holds: when the request carries no service catalog the call
    does not fail: the warning is logged and the target has typeURI, id and
    name [unknown] and no address.  A catalog that is carried but does not
    evaluate is not covered by the handler: the error of the evaluation
    leaves the call, and nothing is logged. *)
Theorem absent_catalog_unknown_target (netloc : string -> string)
    (literal_eval : string -> result (list CatalogEntry.t))
    (_MAP : AuditMap.t) (req : Request.t) :
  (Request.environ req !! "HTTP_X_SERVICE_CATALOG" = None →
   get_target_resource netloc literal_eval _MAP req
   = ([missing_catalog_warning], Ok Catalog.unknown_target))
  ∧ (∀ text e,
       Request.environ req !! "HTTP_X_SERVICE_CATALOG" = Some text →
       literal_eval text = Raise e → is_KeyError e = false →
       get_target_resource netloc literal_eval _MAP req = ([], Raise e)).
Proof.
  split.
  - intros Henv. unfold get_target_resource, Py.getitem. rewrite Henv.
    reflexivity.
  - intros text e Henv Heval Hother. unfold get_target_resource, Py.getitem.
    rewrite Henv. simpl. rewrite Heval, Hother. reflexivity.
Qed.

Lemma absent_catalog_unknown_target_witness :
  get_target_resource Collaborators.netloc
    (Collaborators.literal_eval Examples.known_catalogs)
    Examples.nova_map (Examples.request "GET" "/v2/servers")
  = ([missing_catalog_warning],
     Ok {| Resource.typeURI := "unknown"; Resource.id := "unknown";
           Resource.name := "unknown"; Resource.addresses := [] |})
  ∧ get_target_resource Collaborators.netloc
      (Collaborators.literal_eval Examples.known_catalogs)
      Examples.nova_map Examples.truncated_request
    = ([], Raise SyntaxError).
Proof.
  split.
  - exact (proj1 (absent_catalog_unknown_target Collaborators.netloc
                    (Collaborators.literal_eval Examples.known_catalogs)
                    Examples.nova_map (Examples.request "GET" "/v2/servers"))
             eq_refl).
  - exact (proj2 (absent_catalog_unknown_target Collaborators.netloc
                    (Collaborators.literal_eval Examples.known_catalogs)
                    Examples.nova_map Examples.truncated_request)
             "[{'type': 'compute'," SyntaxError eq_refl eq_refl eq_refl).
Defined.

(** C6, as stated, fails on a catalog that is carried but does not evaluate:
    the call ends with the error and returns no target. *)
Lemma unparseable_catalog_counterexample :
  Request.environ Examples.truncated_request !! "HTTP_X_SERVICE_CATALOG"
    = Some "[{'type': 'compute',"
  ∧ Collaborators.literal_eval Examples.known_catalogs "[{'type': 'compute',"
    = Raise SyntaxError
  ∧ get_target_resource Collaborators.netloc
      (Collaborators.literal_eval Examples.known_catalogs)
      Examples.nova_map Examples.truncated_request
    = ([], Raise SyntaxError)
  ∧ get_target_resource Collaborators.netloc
      (Collaborators.literal_eval Examples.known_catalogs)
      Examples.nova_map Examples.truncated_request
    ≠ ([missing_catalog_warning], Ok Catalog.unknown_target).
Proof.
  repeat apply conj; try (vm_compute; reflexivity).
  vm_compute. discriminate.
Qed.

(** ** Loading the audit map *)

(** Reading a text without sections and options gives the empty map. *)
Lemma __init___empty_file (files : gmap string string)
    (read_file : string -> result ConfigParser.t) (cfg_path : string) :
  read_file "" = Ok ConfigParser.empty →
  files !! cfg_path = Some "" →
  __init__ files read_file (Some cfg_path) = Ok Catalog.empty_map.
Proof.
  intros Hread Hfile. unfold __init__, open_file, Py.truthy.
  destruct (negb (String.eqb cfg_path "")); [|reflexivity].
  rewrite Hfile. simpl. rewrite Hread. reflexivity.
Qed.

(** C7, as it holds: loading from no path at all ([None] or the empty path)
    raises nothing and gives the same all-empty map as loading from an empty
    file; loading from a path at which there is no file ends with the error
    of [open]. *)
Theorem no_path_loads_empty_map (files : gmap string string)
    (read_file : string -> result ConfigParser.t) (cfg_path : string) :
  __init__ files read_file None = Ok Catalog.empty_map
  ∧ __init__ files read_file (Some "") = Ok Catalog.empty_map
  ∧ (read_file "" = Ok ConfigParser.empty → files !! cfg_path = Some "" →
     __init__ files read_file (Some cfg_path) = __init__ files read_file None)
  ∧ (cfg_path ≠ "" → files !! cfg_path = None →
     __init__ files read_file (Some cfg_path) = Raise IOError).
Proof.
  repeat apply conj.
  - reflexivity.
  - reflexivity.
  - intros Hread Hfile. apply (__init___empty_file _ _ _ Hread Hfile).
  - intros Hne Hfile. unfold __init__, open_file, Py.truthy.
    rewrite (eqb_false_of_ne _ _ Hne). simpl. rewrite Hfile. reflexivity.
Qed.

Lemma no_path_loads_empty_map_witness :
  __init__ Examples.files (Collaborators.read_file Examples.known_configs)
    (Some "/etc/audit/empty.conf")
  = __init__ Examples.files (Collaborators.read_file Examples.known_configs) None
  ∧ __init__ Examples.files (Collaborators.read_file Examples.known_configs)
      (Some "/etc/audit/missing.conf")
    = Raise IOError.
Proof.
  split.
  - exact (proj1 (proj2 (proj2
             (no_path_loads_empty_map Examples.files
                (Collaborators.read_file Examples.known_configs)
                "/etc/audit/empty.conf"))) eq_refl eq_refl).
  - refine (proj2 (proj2 (proj2
             (no_path_loads_empty_map Examples.files
                (Collaborators.read_file Examples.known_configs)
                "/etc/audit/missing.conf"))) _ eq_refl).
    discriminate.
Defined.

(** C7, as stated, fails on a path at which there is no file: the load ends
    with the error of [open], where the load from an empty file gives the
    empty map. *)
Lemma nonexistent_path_counterexample :
  Examples.files !! "/etc/audit/missing.conf" = None
  ∧ __init__ Examples.files (Collaborators.read_file Examples.known_configs)
      (Some "/etc/audit/missing.conf")
    = Raise IOError
  ∧ __init__ Examples.files (Collaborators.read_file Examples.known_configs)
      (Some "/etc/audit/empty.conf")
    = Ok Catalog.empty_map
  ∧ __init__ Examples.files (Collaborators.read_file Examples.known_configs)
      (Some "/etc/audit/missing.conf")
    ≠ __init__ Examples.files (Collaborators.read_file Examples.known_configs)
        (Some "/etc/audit/empty.conf").
Proof.
  repeat apply conj; try (vm_compute; reflexivity).
  vm_compute. discriminate.
Qed.


(** * Further properties of the module *)

(** ** Slices, suffixes and the last occurrence of a character *)

Lemma endswith_cons (a : ascii) (s suffix : string) :
  (String.length suffix ≤ String.length s)%nat →
  Py.endswith (String a s) suffix = Py.endswith s suffix.
Proof.
  intros Hle. unfold Py.endswith. cbn [String.length].
  replace (S (String.length s) - String.length suffix)%nat
    with (S (String.length s - String.length suffix)) by lia.
  cbn [substring].
  rewrite (proj2 (Nat.leb_le _ _) Hle).
  rewrite (proj2 (Nat.leb_le (String.length suffix) (S (String.length s))));
    [reflexivity | lia].
Qed.

(** Whether a text ends with a suffix is decided by any tail of it that is
    long enough. *)
Lemma endswith_append_long (s t suffix : string) :
  (String.length suffix ≤ String.length t)%nat →
  Py.endswith (s +:+ t) suffix = Py.endswith t suffix.
Proof.
  intros Hle. induction s as [|a s IH]; [reflexivity|].
  rewrite append_cons, endswith_cons; [exact IH|].
  rewrite length_append. lia.
Qed.

Lemma has_char_append (c : ascii) (s t : string) :
  Py.has_char c (s +:+ t) = Py.has_char c s || Py.has_char c t.
Proof.
  induction s as [|a s IH]; [reflexivity|].
  rewrite append_cons. simpl. rewrite IH. apply orb_assoc.
Qed.

(** A text that ends with a character contains it. *)
Lemma endswith_has_char (c : ascii) (s : string) :
  Py.endswith s (String c EmptyString) = true → Py.has_char c s = true.
Proof.
  induction s as [|a s IH]; [discriminate|].
  destruct s as [|b s].
  - unfold Py.endswith. simpl. destruct (Ascii.eqb_spec a c); [reflexivity|].
    discriminate.
  - rewrite endswith_cons by (simpl; lia). intros H.
    cbn [Py.has_char] in *. rewrite (IH H). apply orb_true_r.
Qed.

Lemma rfind_from_absent (c : ascii) (s : string) (i : Z) :
  Py.has_char c s = false → Py.rfind_from i s c = -1.
Proof.
  revert i. induction s as [|a s IH]; intros i Hno; [reflexivity|].
  simpl in Hno. apply orb_false_iff in Hno as [Ha Hs].
  simpl. rewrite (IH _ Hs), Ha. reflexivity.
Qed.

(** The last occurrence of [c] is the one after which [c] does not occur. *)
Lemma rfind_from_last (c : ascii) (s t : string) (i : Z) :
  0 ≤ i → Py.has_char c t = false →
  Py.rfind_from i (s +:+ String c t) c = i + Z.of_nat (String.length s).
Proof.
  intros Hi Hno. revert i Hi. induction s as [|a s IH]; intros i Hi.
  - simpl. rewrite (rfind_from_absent _ _ _ Hno), Ascii.eqb_refl. simpl. lia.
  - rewrite append_cons. cbn [Py.rfind_from String.length].
    rewrite IH by lia.
    rewrite (proj2 (Z.leb_le 0 _)) by lia. lia.
Qed.

Lemma slice_from_0 (s : string) : Py.slice_from 0 s = s.
Proof. unfold Py.slice_from. rewrite Nat.sub_0_r. apply substring_all. Qed.

Lemma slice_from_append (s t : string) :
  Py.slice_from (String.length s) (s +:+ t) = t.
Proof.
  unfold Py.slice_from. rewrite length_append.
  replace (String.length s + String.length t - String.length s)%nat
    with (String.length t) by lia.
  apply substring_append_tail.
Qed.

(** ** [_clean_path] *)

(** X1: [_clean_path] takes one [.json] suffix off: a text with the suffix
    appended is cleaned back to the text, whatever the text is. *)
Theorem _clean_path_strips_json (value : string) :
  _clean_path (value +:+ ".json") = value.
Proof.
  unfold _clean_path. rewrite endswith_append.
  apply (drop_last_append value ".json").
Qed.

(** ** The last segment of the path *)

(** A non-empty segment without ['/'] behind a ['/'] is the last segment,
    whatever stands before that ['/']. *)
Lemma url_ending_last_segment (p q : string) :
  q ≠ "" → Py.has_char "/" q = false →
  url_ending (p +:+ "/" +:+ q) = _clean_path q.
Proof.
  intros Hq Hno. unfold url_ending.
  change ("/" +:+ q) with (String "/" q).
  assert (Py.endswith (p +:+ String "/" q) "/" = false) as ->.
  { rewrite endswith_append_long by (simpl; lia).
    destruct (Py.endswith (String "/" q) "/") eqn:He; [|reflexivity].
    destruct q as [|b q]; [congruence|].
    rewrite endswith_cons in He by (simpl; lia).
    apply endswith_has_char in He. congruence. }
  unfold Py.rfind.
  rewrite (rfind_from_last "/" p q 0 (Z.le_refl 0) Hno).
  replace (Z.to_nat (0 + Z.of_nat (String.length p) + 1))
    with (String.length (p +:+ "/")) by (rewrite length_append; simpl; lia).
  replace (p +:+ String "/" q) with ((p +:+ "/") +:+ q)
    by (rewrite append_assoc; reflexivity).
  rewrite slice_from_append. reflexivity.
Qed.

(** A path without ['/'] is its own last segment. *)
Lemma url_ending_single_segment (q : string) :
  Py.has_char "/" q = false → url_ending q = _clean_path q.
Proof.
  intros Hno. unfold url_ending.
  destruct (Py.endswith q "/") eqn:He.
  { apply endswith_has_char in He. congruence. }
  unfold Py.rfind. rewrite (rfind_from_absent _ _ _ Hno). simpl.
  rewrite slice_from_0. reflexivity.
Qed.

(** [get_action] reads the path through [url_ending] only. *)
Lemma get_action_same_ending (_MAP : AuditMap.t) (p1 p2 method host_url : string)
    (json : result JSON) (environ : gmap string string) :
  url_ending p1 = url_ending p2 →
  get_action _MAP (Request.mk p1 method host_url json environ)
  = get_action _MAP (Request.mk p2 method host_url json environ).
Proof. intros H. unfold get_action. simpl. rewrite H. reflexivity. Qed.

(** X2: the action depends on the path through its last segment only: two
    paths that end with the same non-empty segment behind a ['/'] get the same
    action, whatever comes before. *)
Theorem action_depends_on_last_segment (_MAP : AuditMap.t)
    (p1 p2 q method host_url : string) (json : result JSON)
    (environ : gmap string string) :
  q ≠ "" → Py.has_char "/" q = false →
  get_action _MAP (Request.mk (p1 +:+ "/" +:+ q) method host_url json environ)
  = get_action _MAP (Request.mk (p2 +:+ "/" +:+ q) method host_url json environ).
Proof.
  intros Hq Hno. apply get_action_same_ending.
  rewrite !url_ending_last_segment by assumption. reflexivity.
Qed.

Lemma action_depends_on_last_segment_witness :
  get_action Examples.nova_map
    (Examples.request "GET" ("/v2/tenant" +:+ "/" +:+ "servers"))
  = get_action Examples.nova_map
      (Examples.request "GET" ("/v3/a/b/c" +:+ "/" +:+ "servers")).
Proof.
  refine (action_depends_on_last_segment Examples.nova_map "/v2/tenant"
            "/v3/a/b/c" "servers" "GET" "http://admin_host:8774"
            (Raise ValueError) ∅ _ eq_refl).
  discriminate.
Defined.

(** X3: a [.json] suffix on the last segment does not change the action,
    when the segment is not empty and does not itself end with [.json]. *)
Theorem json_suffix_keeps_action (_MAP : AuditMap.t)
    (p q method host_url : string) (json : result JSON)
    (environ : gmap string string) :
  q ≠ "" → Py.has_char "/" q = false → Py.endswith q ".json" = false →
  get_action _MAP
    (Request.mk (p +:+ "/" +:+ q +:+ ".json") method host_url json environ)
  = get_action _MAP (Request.mk (p +:+ "/" +:+ q) method host_url json environ).
Proof.
  intros Hq Hno Hplain. apply get_action_same_ending.
  rewrite (url_ending_last_segment p q Hq Hno).
  rewrite (url_ending_last_segment p (q +:+ ".json")).
  - rewrite _clean_path_strips_json. unfold _clean_path. rewrite Hplain.
    reflexivity.
  - destruct q; [congruence | discriminate].
  - rewrite has_char_append, Hno. reflexivity.
Qed.

Lemma json_suffix_keeps_action_witness :
  get_action Examples.nova_map
    (Examples.request "GET" ("/v2" +:+ "/" +:+ "servers" +:+ ".json"))
  = get_action Examples.nova_map
      (Examples.request "GET" ("/v2" +:+ "/" +:+ "servers")).
Proof.
  refine (json_suffix_keeps_action Examples.nova_map "/v2" "servers" "GET"
            "http://admin_host:8774" (Raise ValueError) ∅ _ eq_refl eq_refl).
  discriminate.
Defined.

(** ** What [get_action] raises and returns *)

(** The body branch of [get_action], by the outcome of [req.json]. *)
Lemma action_body_outcome (body : result JSON) :
  try_except
    (j ← body;
     if Json.truthy j then
       ks ← Json.keys j;
       body_action ← Py.first ks;
       Ok (taxonomy.ACTION_UPDATE +:+ "/" +:+ body_action)
     else Ok taxonomy.ACTION_CREATE)
    is_ValueError (fun _ => Ok taxonomy.ACTION_CREATE)
  = match body with
    | Ok (JObject ((key, _) :: _)) => Ok ("update/" +:+ key)
    | Ok j => if Json.truthy j then Raise AttributeError else Ok "create"
    | Raise e => if is_ValueError e then Ok "create" else Raise e
    end.
Proof.
  destruct body as [j|e]; [|reflexivity].
  destruct j as [|b|q|s|items|members]; simpl.
  - reflexivity.
  - destruct b; reflexivity.
  - destruct (negb _); reflexivity.
  - destruct (negb _); reflexivity.
  - destruct items; reflexivity.
  - destruct members as [|[key value] rest]; reflexivity.
Qed.

(** X4: [get_action] raises on one kind of request only, a POST whose last
    segment is [action] and matches no [custom_actions] key; what it raises
    there is never [ValueError]: it is the error of [req.json], or the
    [AttributeError] of a body that parses to a non-empty value without
    [keys]. *)
Theorem get_action_raises_only_on_action_body (_MAP : AuditMap.t)
    (req : Request.t) (e : exn) :
  get_action _MAP req = Raise e →
  Request.method req = "POST"
  ∧ url_ending (Request.path req) = "action"
  ∧ AuditMap.custom_actions _MAP !! "action/post" = None
  ∧ AuditMap.custom_actions _MAP !! "action" = None
  ∧ e ≠ ValueError
  ∧ (Request.json req = Raise e
     ∨ (e = AttributeError
        ∧ ∃ j, Request.json req = Ok j ∧ Json.truthy j = true
               ∧ Json.keys j = Raise AttributeError)).
Proof.
  unfold get_action.
  destruct (AuditMap.custom_actions _MAP !! _) eqn:Hm; [discriminate|].
  destruct (AuditMap.custom_actions _MAP !! url_ending _) eqn:Hs; [discriminate|].
  destruct (String.eqb_spec (Request.method req) "POST") as [Hpost|_].
  - destruct (String.eqb_spec (url_ending (Request.path req)) "action")
      as [Haction|_].
    + rewrite Hpost, Haction in Hm. rewrite Haction in Hs.
      rewrite action_body_outcome. intros Hraise.
      repeat (split; [assumption|]).
      destruct (Request.json req) as [j|e'].
      * assert (e = AttributeError ∧ Json.truthy j = true
                ∧ Json.keys j = Raise AttributeError) as (-> & Ht & Hk).
        { destruct j as [|b|q|s|items|members]; simpl in *;
            try discriminate;
            try (destruct members as [|[key value] rest]; discriminate);
            match type of Hraise with
            | (if ?c then _ else _) = _ =>
                destruct c; [injection Hraise as <-; auto | discriminate]
            end. }
        split; [discriminate|]. right. split; [reflexivity|]. eauto.
      * destruct e'; simpl in Hraise; try discriminate;
          injection Hraise as <-; (split; [discriminate | left; reflexivity]).
    + destruct (negb _); discriminate.
  - destruct (String.eqb _ "GET"); [destruct (Py.contains _ _); discriminate|].
    destruct (_ || _); [discriminate|].
    destruct (String.eqb _ "DELETE"); [discriminate|].
    destruct (String.eqb _ "HEAD"); discriminate.
Qed.

Lemma get_action_raises_only_on_action_body_witness :
  Request.method
    (Examples.request_with_body "POST" "/v2/servers/7/action"
       (Ok (JArray [JString "reboot"]))) = "POST"
  ∧ url_ending "/v2/servers/7/action" = "action"
  ∧ AuditMap.custom_actions Examples.nova_map !! "action/post" = None
  ∧ AuditMap.custom_actions Examples.nova_map !! "action" = None
  ∧ AttributeError ≠ ValueError
  ∧ (Ok (JArray [JString "reboot"]) = Raise AttributeError
     ∨ (AttributeError = AttributeError
        ∧ ∃ j, Ok (JArray [JString "reboot"]) = Ok j ∧ Json.truthy j = true
               ∧ Json.keys j = Raise AttributeError)).
Proof.
  exact (get_action_raises_only_on_action_body Examples.nova_map
           (Examples.request_with_body "POST" "/v2/servers/7/action"
              (Ok (JArray [JString "reboot"])))
           AttributeError eq_refl).
Defined.

(** X5: when the last segment matches no [custom_actions] key, the action
    returned is one of [create], [read], [update], [delete], [list] and
    [unknown], or [update/] followed by the first key of the object the body
    parses to. *)
Theorem default_action_range (_MAP : AuditMap.t) (req : Request.t)
    (action : string) :
  AuditMap.custom_actions _MAP
    !! (url_ending (Request.path req) +:+ "/" +:+ Py.lower (Request.method req))
    = None →
  AuditMap.custom_actions _MAP !! url_ending (Request.path req) = None →
  get_action _MAP req = Ok action →
  action ∈ ["create"; "read"; "update"; "delete"; "list"; "unknown"]
  ∨ ∃ key value rest,
      Request.json req = Ok (JObject ((key, value) :: rest))
      ∧ action = "update/" +:+ key.
Proof.
  intros Hm Hs. rewrite (get_action_no_custom _ _ Hm Hs).
  destruct (String.eqb _ "POST").
  - destruct (String.eqb _ "action").
    + change "update" with taxonomy.ACTION_UPDATE.
      change "create" with taxonomy.ACTION_CREATE.
      rewrite action_body_outcome.
      destruct (Request.json req) as [j|e'].
      * destruct j as [|b|q|s|items|members];
          try (destruct members as [|[key value] rest]);
          try (simpl; match goal with
                      | |- (if ?c then _ else _) = _ → _ => destruct c
                      end);
          intros H; try discriminate H; injection H as <-;
          try (left; set_solver).
        right. eauto.
      * destruct (is_ValueError e'); intros H; [|discriminate H].
        injection H as <-. left. set_solver.
    + destruct (Py.contains _ _); intros H; injection H as <-; left; set_solver.
  - destruct (String.eqb _ "GET").
    { destruct (Py.contains _ _); intros H; injection H as <-; left; set_solver. }
    destruct (_ || _); [intros H; injection H as <-; left; set_solver|].
    destruct (String.eqb _ "DELETE");
      [intros H; injection H as <-; left; set_solver|].
    destruct (String.eqb _ "HEAD"); intros H; injection H as <-; left; set_solver.
Qed.

Lemma default_action_range_witness :
  "update/reboot" ∈ ["create"; "read"; "update"; "delete"; "list"; "unknown"]
  ∨ ∃ key value rest,
      Request.json
        (Examples.request_with_body "POST" "/v2/servers/7/action"
           (Ok (JObject [("reboot", JNull)])))
      = Ok (JObject ((key, value) :: rest))
      ∧ "update/reboot" = "update/" +:+ key.
Proof.
  exact (default_action_range Examples.nova_map
           (Examples.request_with_body "POST" "/v2/servers/7/action"
              (Ok (JObject [("reboot", JNull)])))
           "update/reboot" eq_refl eq_refl eq_refl).
Defined.

(** ** The target built from a catalog entry *)

(** X6: the target of a catalog entry with a first endpoint: its name is the
    entry's, its id is the endpoint's [id] or else the entry's name, its
    addresses are the admin, private and public endpoints in this order, each
    with [unknown] for a URL the endpoint lacks, and its typeURI is [unknown]
    when [service_endpoints] has nothing (or [unknown]) for the entry's type. *)
Theorem target_of_catalog_entry (_MAP : AuditMap.t) (req : Request.t)
    (endp : CatalogEntry.t) (urls : EndpointUrls.t) :
  head (CatalogEntry.endpoints endp) = Some urls →
  _build_target _MAP req <$> _get_service_info _MAP endp
  = Ok {| Resource.typeURI :=
            (let service_type :=
               default "unknown"
                 (AuditMap.service_endpoints _MAP !! CatalogEntry.type endp) in
             if String.eqb service_type "unknown" then "unknown"
             else Spec.typeURI (AuditMap.path_kw _MAP) service_type
                    (Request.path req));
          Resource.id :=
            default (CatalogEntry.name endp) (EndpointUrls.id urls);
          Resource.name := CatalogEntry.name endp;
          Resource.addresses :=
            [ {| Endpoint.url := default "unknown" (EndpointUrls.adminURL urls);
                 Endpoint.name := "admin" |};
              {| Endpoint.url := default "unknown" (EndpointUrls.internalURL urls);
                 Endpoint.name := "private" |};
              {| Endpoint.url := default "unknown" (EndpointUrls.publicURL urls);
                 Endpoint.name := "public" |} ] |}.
Proof.
  intros Hhead. unfold _get_service_info.
  rewrite (first_of_head _ _ Hhead). cbn [mbind result_bind bind fmap result_fmap].
  f_equal. unfold _build_target. cbn [Service.type Service.id Service.name
    Service.admin_endp Service.private_endp Service.public_endp].
  unfold Resource.add_address. cbn [Resource.typeURI Resource.id Resource.name
    Resource.addresses app]. unfold taxonomy.UNKNOWN.
  f_equal.
  destruct (String.eqb_spec
              (default "unknown"
                 (AuditMap.service_endpoints _MAP !! CatalogEntry.type endp))
              "unknown") as [Heq|Hne]; simpl.
  - exact Heq.
  - apply _build_typeURI_spec.
Qed.

Lemma target_of_catalog_entry_witness :
  _build_target Examples.nova_map Examples.glance_request
    <$> _get_service_info Examples.nova_map Examples.nova_west
  = Ok {| Resource.typeURI := "service/compute/servers/server";
          Resource.id := "nova-west"; Resource.name := "nova-west";
          Resource.addresses :=
            [ {| Endpoint.url := "http://west_admin:8774/v2";
                 Endpoint.name := "admin" |};
              {| Endpoint.url := "unknown"; Endpoint.name := "private" |};
              {| Endpoint.url := "http://west_public:8774/v2";
                 Endpoint.name := "public" |} ] |}.
Proof.
  exact (target_of_catalog_entry Examples.nova_map Examples.glance_request
           Examples.nova_west _ eq_refl).
Defined.

(** ** The scan without a match *)

Section NoMatch.

Variable netloc : string -> string.
Variable _MAP : AuditMap.t.
Variable req : Request.t.

(** Entries that do not have the default type leave the default endpoint
    as it is. *)
Lemma default_after_unchanged (catalog : list CatalogEntry.t) :
  Forall (fun e => is_default_type _MAP e = false) catalog →
  ∀ default_endpoint,
    Catalog.default_after _MAP catalog default_endpoint = default_endpoint.
Proof.
  intros Hall. induction Hall as [|e catalog He _ IH]; intros d.
  - reflexivity.
  - unfold Catalog.default_after in *. simpl. rewrite He. apply IH.
Qed.

(** No default endpoint type is configured, or no entry has it. *)
Lemma default_after_none (catalog : list CatalogEntry.t) :
  (∀ t, AuditMap.default_target_endpoint_type _MAP = Some t →
        t = "" ∨ Forall (fun e => CatalogEntry.type e ≠ t) catalog) →
  Catalog.default_after _MAP catalog None = None.
Proof.
  intros Hd. apply default_after_unchanged.
  apply Forall_forall. intros e He. unfold is_default_type.
  destruct (AuditMap.default_target_endpoint_type _MAP) as [t|];
    [|reflexivity].
  destruct (Hd t eq_refl) as [-> | Hall]; [reflexivity|].
  apply andb_false_iff. right. apply bool_decide_eq_false.
  intros [= Heq]. revert Heq. apply (proj1 (Forall_forall _ _) Hall e He).
Qed.

(** A visit to an entry without endpoints ends the scan with [IndexError]. *)
Lemma scan_catalog_empty_endpoints (pre : list CatalogEntry.t)
    (endp : CatalogEntry.t) (post : list CatalogEntry.t) :
  Forall (Catalog.misses_host netloc req) pre →
  CatalogEntry.endpoints endp = [] →
  ∀ default_endpoint,
    scan_catalog netloc _MAP req (pre ++ endp :: post) default_endpoint
    = Raise IndexError.
Proof.
  intros Hpre Hnone. induction Hpre as [|e pre He _ IH]; intros d.
  - simpl. rewrite Hnone. reflexivity.
  - rewrite <- app_comm_cons, (scan_catalog_miss _ _ _ _ _ _ He). apply IH.
Qed.


End NoMatch.

(** X7: when no entry matches the request's host and no entry has a
    configured default type (none is set, it is the empty string, or no entry
    is of that type), the target is the all-unknown one and nothing is
    logged. *)
Theorem no_match_no_default_unknown_target (netloc : string -> string)
    (literal_eval : string -> result (list CatalogEntry.t))
    (_MAP : AuditMap.t) (req : Request.t) (text : string)
    (catalog : list CatalogEntry.t) :
  Request.environ req !! "HTTP_X_SERVICE_CATALOG" = Some text →
  literal_eval text = Ok catalog →
  Forall (Catalog.misses_host netloc req) catalog →
  (∀ t, AuditMap.default_target_endpoint_type _MAP = Some t →
        t = "" ∨ Forall (fun e => CatalogEntry.type e ≠ t) catalog) →
  get_target_resource netloc literal_eval _MAP req
  = ([], Ok Catalog.unknown_target).
Proof.
  intros Henv Heval Hmiss Hd.
  rewrite (get_target_resource_catalog _ _ _ _ _ _ Henv Heval).
  rewrite (scan_catalog_no_hit netloc _MAP req _ Hmiss None).
  rewrite (default_after_none _MAP catalog Hd). reflexivity.
Qed.

Lemma no_match_no_default_unknown_target_witness :
  get_target_resource Collaborators.netloc
    (Collaborators.literal_eval Examples.known_catalogs)
    Examples.boot_no_default_map Examples.unmatched_request
  = ([], Ok Catalog.unknown_target).
Proof.
  apply (no_match_no_default_unknown_target Collaborators.netloc
           (Collaborators.literal_eval Examples.known_catalogs)
           Examples.boot_no_default_map Examples.unmatched_request
           (Collaborators.repr
              [Examples.nova; Examples.nova_west; Examples.glance])
           [Examples.nova; Examples.nova_west; Examples.glance]).
  - vm_compute. reflexivity.
  - vm_compute. reflexivity.
  - repeat (constructor; [eexists; split; vm_compute; reflexivity|]).
    constructor.
  - intros t [= <-]. left. reflexivity.
Defined.

(** X8: a catalog entry without endpoints that the scan reaches (no entry
    before it matches the host) ends the call with [IndexError]: nothing is
    logged and no target is returned, whatever follows the entry. *)
Theorem entry_without_endpoints_raises (netloc : string -> string)
    (literal_eval : string -> result (list CatalogEntry.t))
    (_MAP : AuditMap.t) (req : Request.t) (text : string)
    (pre : list CatalogEntry.t) (endp : CatalogEntry.t)
    (post : list CatalogEntry.t) :
  Request.environ req !! "HTTP_X_SERVICE_CATALOG" = Some text →
  literal_eval text = Ok (pre ++ endp :: post)%list →
  Forall (Catalog.misses_host netloc req) pre →
  CatalogEntry.endpoints endp = [] →
  get_target_resource netloc literal_eval _MAP req = ([], Raise IndexError).
Proof.
  intros Henv Heval Hpre Hnone.
  rewrite (get_target_resource_catalog _ _ _ _ _ _ Henv Heval).
  rewrite (scan_catalog_empty_endpoints netloc _MAP req pre endp post Hpre
             Hnone None).
  reflexivity.
Qed.

Lemma entry_without_endpoints_raises_witness :
  get_target_resource Collaborators.netloc
    (Collaborators.literal_eval Examples.known_catalogs)
    Examples.nova_map Examples.unmatched_broken_request
  = ([], Raise IndexError).
Proof.
  apply (entry_without_endpoints_raises Collaborators.netloc
           (Collaborators.literal_eval Examples.known_catalogs)
           Examples.nova_map Examples.unmatched_broken_request
           (Collaborators.repr
              [Examples.nova_west; Examples.glance; Examples.broken])
           [Examples.nova_west; Examples.glance] Examples.broken []).
  - vm_compute. reflexivity.
  - vm_compute. reflexivity.
  - repeat (constructor; [eexists; split; vm_compute; reflexivity|]).
    constructor.
  - reflexivity.
Defined.



(** X10: the warning is logged on one path only: whenever the call logs
    anything, it logs the one warning of the missing catalog and returns the
    all-unknown target. *)
Theorem warning_comes_with_unknown_target (netloc : string -> string)
    (literal_eval : string -> result (list CatalogEntry.t))
    (_MAP : AuditMap.t) (req : Request.t) :
  (get_target_resource netloc literal_eval _MAP req).1 ≠ [] →
  get_target_resource netloc literal_eval _MAP req
  = ([missing_catalog_warning], Ok Catalog.unknown_target).
Proof.
  unfold get_target_resource.
  destruct (v ← Py.getitem (Request.environ req) "HTTP_X_SERVICE_CATALOG";
            literal_eval v) as [catalog|e].
  - simpl. congruence.
  - destruct (is_KeyError e); simpl; [reflexivity | congruence].
Qed.

Lemma warning_comes_with_unknown_target_witness :
  get_target_resource Collaborators.netloc
    (Collaborators.literal_eval Examples.known_catalogs)
    Examples.nova_map (Examples.request "GET" "/v2/servers")
  = ([missing_catalog_warning], Ok Catalog.unknown_target).
Proof.
  apply warning_comes_with_unknown_target. vm_compute. discriminate.
Defined.

(** ** A path without keywords *)

Lemma segment_parts_without_keywords (path_kw : gmap string string)
    (segments : list string) :
  Forall (fun segment => path_kw !! segment = None) segments →
  ∀ previous,
    (∀ p, previous = Some p → path_kw !! p = None) →
    fold_right String.append ""
      (Spec.segment_parts path_kw previous segments) = "".
Proof.
  intros Hall. induction Hall as [|segment segments Hs _ IH]; intros prev Hp.
  - reflexivity.
  - cbn [Spec.segment_parts fold_right]. unfold Spec.segment_part.
    rewrite Hs. rewrite IH by (intros p [= <-]; exact Hs).
    destruct prev as [p|]; [|reflexivity].
    rewrite (Hp p eq_refl). reflexivity.
Qed.

(** X11: when no segment of the path (stripped of a [.json] suffix) is a
    path keyword, [_build_typeURI] returns the service type as it is. *)
Theorem typeURI_without_keywords (_MAP : AuditMap.t) (req : Request.t)
    (service_type : string) :
  Forall (fun key => AuditMap.path_kw _MAP !! _clean_path key = None)
    (Py.split "/" (Request.path req)) →
  _build_typeURI _MAP req service_type = service_type.
Proof.
  intros Hall. rewrite _build_typeURI_spec. unfold Spec.typeURI.
  rewrite segment_parts_without_keywords.
  - apply append_nil_r.
  - apply Forall_fmap. exact Hall.
  - discriminate.
Qed.

Lemma typeURI_without_keywords_witness :
  _build_typeURI Examples.nova_map
    (Examples.request "GET" "/v2/flavors/3.json") "service/compute"
  = "service/compute".
Proof.
  apply typeURI_without_keywords.
  repeat (constructor; [reflexivity|]). constructor.
Defined.

(** ** Loading the audit map from a file *)

(** X12: when the parser rejects the file, a [ParsingError] becomes
    [PycadfAuditApiConfigError] with the parser's message behind the text
    [Error parsing audit map file: ], and every other error of the parser
    leaves [__init__] as it is. *)
Theorem __init___read_error (files : gmap string string)
    (read_file : string -> result ConfigParser.t)
    (cfg_path text : string) (e : exn) :
  cfg_path ≠ "" → files !! cfg_path = Some text → read_file text = Raise e →
  __init__ files read_file (Some cfg_path)
  = Raise match e with
          | ParsingError err =>
              PycadfAuditApiConfigError ("Error parsing audit map file: " +:+ err)
          | _ => e
          end.
Proof.
  intros Hne Hfile Hread. unfold __init__, open_file, Py.truthy.
  rewrite (eqb_false_of_ne _ _ Hne), Hfile. simpl. rewrite Hread.
  destruct e; reflexivity.
Qed.

Lemma __init___read_error_witness :
  __init__ Examples.audit_files
    (Collaborators.read_file Examples.audit_configs)
    (Some "/etc/audit/broken.conf")
  = Raise (PycadfAuditApiConfigError
             "Error parsing audit map file: [path_keywords").
Proof.
  refine (__init___read_error Examples.audit_files
            (Collaborators.read_file Examples.audit_configs)
            "/etc/audit/broken.conf" "[path_keywords"
            (ParsingError "[path_keywords") _ eq_refl eq_refl).
  discriminate.
Defined.



(** ** The body is read on one kind of request only *)

(** X14: [req.json] is looked at only on a POST whose last segment is
    [action] and matches no [custom_actions] key: on every other request the
    action is the same whatever the body is, also when it does not parse. *)
Theorem body_read_only_on_post_action (_MAP : AuditMap.t)
    (path method host_url : string) (json1 json2 : result JSON)
    (environ : gmap string string) :
  method ≠ "POST" ∨ url_ending path ≠ "action"
  ∨ is_Some (AuditMap.custom_actions _MAP !! "action/post")
  ∨ is_Some (AuditMap.custom_actions _MAP !! "action") →
  get_action _MAP (Request.mk path method host_url json1 environ)
  = get_action _MAP (Request.mk path method host_url json2 environ).
Proof.
  intros Hother. unfold get_action. simpl.
  destruct (AuditMap.custom_actions _MAP
              !! (url_ending path +:+ "/" +:+ Py.lower method)) eqn:Hm;
    [reflexivity|].
  destruct (AuditMap.custom_actions _MAP !! url_ending path) eqn:Hs;
    [reflexivity|].
  destruct (String.eqb_spec method "POST") as [Hpost|_]; [|reflexivity].
  destruct (String.eqb_spec (url_ending path) "action") as [Haction|_];
    [|reflexivity].
  rewrite Hpost, Haction in Hm. rewrite Haction in Hs.
  destruct Hother as [H | [H | [[a H] | [a H]]]]; try contradiction.
  - change ("action" +:+ "/" +:+ Py.lower "POST") with "action/post" in Hm.
    congruence.
  - congruence.
Qed.

Lemma body_read_only_on_post_action_witness :
  get_action Examples.nova_map
    (Request.mk "/v2/servers/7/action" "PUT" "http://admin_host:8774"
       (Ok (JArray [JNull])) ∅)
  = get_action Examples.nova_map
      (Request.mk "/v2/servers/7/action" "PUT" "http://admin_host:8774"
         (Raise TypeError) ∅).
Proof.
  apply body_read_only_on_post_action. left. discriminate.
Defined.

(** ** The type URI of a member of a collection *)

Lemma split_without_separator (c : ascii) (s : string) :
  Py.has_char c s = false → Py.split c s = [s].
Proof.
  induction s as [|a s IH]; [reflexivity|].
  simpl. intros H. apply orb_false_iff in H as [Ha Hs].
  rewrite Ha, (IH Hs). reflexivity.
Qed.

Lemma split_at_separator (c : ascii) (s t : string) :
  Py.has_char c s = false →
  Py.split c (s +:+ String c t) = s :: Py.split c t.
Proof.
  induction s as [|a s IH].
  - intros _. simpl. rewrite Ascii.eqb_refl. reflexivity.
  - intros H. simpl in H. apply orb_false_iff in H as [Ha Hs].
    rewrite append_cons. simpl. rewrite Ha, (IH Hs). reflexivity.
Qed.

(** X15: for the path of a member of a collection, ['/'] collection ['/']
    member, where the collection is a path keyword and the member is not,
    the type URI is the service type, the collection and the keyword
    [path_kw] gives for the collection: the member's own name is left out. *)
Theorem typeURI_of_collection_member (_MAP : AuditMap.t) (req : Request.t)
    (service_type collection member keyword : string) :
  Request.path req = "/" +:+ collection +:+ "/" +:+ member →
  Py.has_char "/" collection = false → Py.has_char "/" member = false →
  AuditMap.path_kw _MAP !! "" = None →
  AuditMap.path_kw _MAP !! _clean_path collection = Some keyword →
  AuditMap.path_kw _MAP !! _clean_path member = None →
  _build_typeURI _MAP req service_type
  = service_type +:+ "/" +:+ _clean_path collection +:+ "/" +:+ keyword.
Proof.
  intros Hpath Hc Hm Hroot Hkw Hmember.
  rewrite _build_typeURI_spec, Hpath. unfold Spec.typeURI.
  change ("/" +:+ collection +:+ "/" +:+ member)
    with ("" +:+ String "/" (collection +:+ String "/" member)).
  rewrite (split_at_separator "/" "" _ eq_refl).
  rewrite (split_at_separator "/" collection member Hc).
  rewrite (split_without_separator "/" member Hm).
  cbn [map Spec.segment_parts fold_right]. unfold Spec.segment_part.
  change (_clean_path "") with "".
  rewrite Hroot, Hkw, Hmember.
  rewrite append_nil_r, append_assoc. reflexivity.
Qed.

Lemma typeURI_of_collection_member_witness :
  _build_typeURI Examples.nova_map
    (Examples.request "DELETE" ("/" +:+ "servers" +:+ "/" +:+ "7.json"))
    "service/compute"
  = "service/compute" +:+ "/" +:+ _clean_path "servers" +:+ "/" +:+ "server".
Proof.
  exact (typeURI_of_collection_member Examples.nova_map
           (Examples.request "DELETE" ("/" +:+ "servers" +:+ "/" +:+ "7.json"))
           "service/compute" "servers" "7.json" "server"
           eq_refl eq_refl eq_refl eq_refl eq_refl eq_refl).
Defined.
